(** * Fire Type Quest: the inference pipeline of [app.py]

    A shallow embedding of the Streamlit script [src/app.py]: one execution
    of the script (one user interaction) is a function from the widget
    values and the session state to the list of calls made to Streamlit and
    to the loaded model, the new session state and the way the script ended.

    - Python floats are IEEE-754 doubles: [PrimFloat.float].
    - [st.session_state] is a finite map from attribute names to values.
    - The unpickled scaler and classifier are opaque: a record of functions
      that either return a value or raise.
    - A call to Streamlit that shows something is recorded in the trace and
      returns, except [st.progress], which raises on a value it refuses;
      the calls that only draw (style sheet, titles, input guide, preview
      table, fun fact, quote, chart, footer) are left out of the trace.
      [st.stop] and [st.experimental_rerun] end the run. *)

From Stdlib Require Import ZArith Floats.
From stdpp Require Import gmap strings list fin_maps.

Local Open Scope Z_scope.

(** ** Python values and exceptions *)

Module Py.

(** [x < y] and [x > y] on two floats (an [int] literal such as [300] is
    compared by value, which for these constants is the comparison with
    the float of the same value). *)
Definition lt (x y : float) : bool := PrimFloat.ltb x y.
Definition gt (x y : float) : bool := PrimFloat.ltb y x.
Definition le (x y : float) : bool := PrimFloat.leb x y.

(** Truth value of a float: false exactly for [0.0] and [-0.0]. *)
Definition truthy (x : float) : bool := negb (PrimFloat.eqb x 0%float).

(** [max(xs)] on a sequence: the first element is kept until a strictly
    greater one is met; an empty sequence raises [ValueError]. *)
Fixpoint max_from (acc : float) (xs : list float) : float :=
  match xs with
  | [] => acc
  | x :: rest => max_from (if gt x acc then x else acc) rest
  end.

Definition max (xs : list float) : option float :=
  match xs with
  | [] => None
  | x :: rest => Some (max_from x rest)
  end.

(** [s in t] for strings. *)
Fixpoint starts_with (p s : string) : bool :=
  match p, s with
  | EmptyString, _ => true
  | String a p', String b s' => if Ascii.eqb a b then starts_with p' s' else false
  | String _ _, EmptyString => false
  end.

Fixpoint contains (p s : string) : bool :=
  starts_with p s ||
  match s with
  | EmptyString => false
  | String _ s' => contains p s'
  end.

End Py.

(** Exceptions raised while the script runs, with the text [str(e)]. *)
Inductive exn : Type :=
| AttributeError (msg : string)
| KeyError (msg : string)
| ValueError (msg : string)
| IndexError (msg : string)
| TypeError (msg : string)
| OtherError (msg : string).

Definition str (e : exn) : string :=
  match e with
  | AttributeError msg | KeyError msg | ValueError msg
  | IndexError msg | TypeError msg | OtherError msg => msg
  end.

(** [except AttributeError] and [except Exception]. *)
Definition is_AttributeError (e : exn) : bool :=
  match e with AttributeError _ => true | _ => false end.

Definition is_Exception (e : exn) : bool := true.

(** What a call into the unpickled objects gives back. *)
Inductive result (A : Type) : Type :=
| Ok (a : A)
| Err (e : exn).
Arguments Ok {A} a.
Arguments Err {A} e.

(** ** Session state *)

Module Entry.
(** One dictionary [{"result": ..., "confidence": ...}] of the history. *)
Record t : Type := mk { result : string; confidence : float }.
End Entry.

Inductive value : Type :=
| VFloat (x : float)
| VStr (s : string)
| VList (h : list Entry.t).

(** [st.session_state]: attribute name to value. *)
Abbreviation session_state := (gmap string value).

(** ** The calls a run makes, in order *)

(** Text handed to [st.write] and [st.markdown] that embeds a formatted
    value is kept as the value it embeds. *)
Inductive shown : Type :=
| QuestHistoryHeading
| QuestLine (number : nat) (result : string) (confidence : float)
| RawPrediction (prediction : Z)
| Probabilities (prediction_proba : list float)
| NoPredictProba
| PredictionBox (result : string)
| ConfidenceLine (max_proba : float).

Inductive call : Type :=
| st_warning (body : string)
| st_error (body : string)
| st_write (s : shown)
| st_markdown (s : shown)
| st_progress (value : float)
| scaler_transform (input_array : list float)
| model_predict (scaled_input : list float)
| model_predict_proba (scaled_input : list float).

(** ** The objects loaded by [joblib.load] (lines 10-12) *)

(** The element type of the array [predict_proba] returns: a float64 is a
    Python float, a float32 is not. *)
Inductive dtype : Type :=
| float64
| float32.

Record artifacts : Type := {
  (** [scaler.transform(input_array)], one row in and one row out *)
  transform : list float -> result (list float);
  (** [model.predict(scaled_input)[0]] *)
  predict : list float -> result Z;
  (** [model.predict_proba(scaled_input)[0]]; a model without the method
      raises [AttributeError] *)
  predict_proba : list float -> result (list float);
  (** the element type of that row *)
  proba_dtype : dtype
}.

(** ** Script monad: session state, trace of calls, control flow *)

Inductive outcome (A : Type) : Type :=
| Return (a : A)
| Raise (e : exn)
| Stop
| Rerun.
Arguments Return {A} a.
Arguments Raise {A} e.
Arguments Stop {A}.
Arguments Rerun {A}.

Definition script (A : Type) : Type :=
  session_state -> outcome A * session_state * list call.

Definition ret {A} (a : A) : script A := fun ss => (Return a, ss, []).

Definition bind {A B} (c : script A) (k : A -> script B) : script B :=
  fun ss =>
    match c ss with
    | (Return a, ss1, t1) =>
        match k a ss1 with
        | (o, ss2, t2) => (o, ss2, t1 ++ t2)
        end
    | (Raise e, ss1, t1) => (Raise e, ss1, t1)
    | (Stop, ss1, t1) => (Stop, ss1, t1)
    | (Rerun, ss1, t1) => (Rerun, ss1, t1)
    end.

#[export] Instance script_ret : MRet script := @ret.
#[export] Instance script_bind : MBind script := fun A B k c => bind c k.

Definition raise {A} (e : exn) : script A := fun ss => (Raise e, ss, []).
Definition emit (c : call) : script unit := fun ss => (Return tt, ss, [c]).
Definition st_stop {A} : script A := fun ss => (Stop, ss, []).
Definition st_experimental_rerun {A} : script A := fun ss => (Rerun, ss, []).

(** [try: body / except E as e: handler e]; state changes and calls made
    by [body] before it raised stay. *)
Definition try_except {A} (body : script A) (catches : exn -> bool)
    (handler : exn -> script A) : script A :=
  fun ss =>
    match body ss with
    | (Raise e, ss1, t1) =>
        if catches e then
          match handler e ss1 with
          | (o, ss2, t2) => (o, ss2, t1 ++ t2)
          end
        else (Raise e, ss1, t1)
    | r => r
    end.

Definition when (b : bool) (c : script unit) : script unit :=
  if b then c else mret tt.

(** Reading and assigning [st.session_state.<name>]. *)
Definition get_attr (name : string) : script value :=
  fun ss =>
    match ss !! name with
    | Some v => (Return v, ss, [])
    | None => (Raise (AttributeError name), ss, [])
    end.

Definition set_attr (name : string) (v : value) : script unit :=
  fun ss => (Return tt, <[name := v]> ss, []).

Definition has_attr (name : string) : script bool :=
  fun ss => (Return (bool_decide (is_Some (ss !! name))), ss, []).

Definition lift {A} (r : result A) : script A :=
  match r with
  | Ok a => mret a
  | Err e => raise e
  end.

(** ** The script *)

(** [sep.join(parts)] *)
Fixpoint join (sep : string) (parts : list string) : string :=
  match parts with
  | [] => ""
  | [p] => p
  | p :: rest => p +:+ sep +:+ join sep rest
  end.

(** The int [n] as a float, as [np.array] stores it next to floats. *)
Definition float_of_int (n : Z) : float :=
  if n <? 0 then PrimFloat.opp (PrimFloat.of_uint63 (Uint63.of_Z (- n)))
  else PrimFloat.of_uint63 (Uint63.of_Z n).

(** Values of the form's widgets in one run, and which button was pressed
    (lines 113-126). *)
Record widgets : Type := {
  brightness : float;
  bright_t31 : float;
  frp : float;
  scan : float;
  track : float;
  confidence : string;
  submitted : bool;
  reset : bool
}.

(** The [value=] of each slider and the first option of the selectbox. *)
Definition widget_defaults : list (string * value) :=
  [ ("brightness", VFloat 300); ("bright_t31", VFloat 290);
    ("frp", VFloat 15); ("scan", VFloat 1); ("track", VFloat 1);
    ("confidence", VStr "low") ].

(** Lines 71-72. *)
Definition init_history : script unit :=
  present ← has_attr "history";
  when (negb present) (set_attr "history" (VList [])).

(** Truth value of an attribute's value, as [if v:] takes it. *)
Definition truth (v : value) : bool :=
  match v with
  | VFloat x => Py.truthy x
  | VStr s => negb (String.eqb s "")
  | VList h => negb (bool_decide (h = []))
  end.

(** Lines 100-101: one line per entry, numbered from 1. *)
Fixpoint quest_lines (idx : nat) (h : list Entry.t) : script unit :=
  match h with
  | [] => mret tt
  | entry :: rest =>
      emit (st_markdown
              (QuestLine (idx + 1) (Entry.result entry)
                 (Entry.confidence entry)));;
      quest_lines (S idx) rest
  end.

(** Lines 98-101 of the sidebar; the lines of the sidebar before them only
    draw. A float cannot be enumerated, and the characters of a string
    cannot be indexed by ["result"]. *)
Definition sidebar_history : script unit :=
  v ← get_attr "history";
  when (truth v)
    (emit (st_markdown QuestHistoryHeading);;
     match v with
     | VList h => quest_lines 0 h
     | VStr _ => raise (TypeError "string indices must be integers")
     | VFloat _ => raise (TypeError "'float' object is not iterable")
     end).

(** Lines 129-136. *)
Definition reset_inputs : script unit :=
  set_attr "brightness" (VFloat 300);;
  set_attr "bright_t31" (VFloat 290);;
  set_attr "frp" (VFloat 15);;
  set_attr "scan" (VFloat 1);;
  set_attr "track" (VFloat 1);;
  set_attr "confidence" (VStr "low");;
  st_experimental_rerun.

(** Line 149. *)
Definition confidence_map : gmap string Z :=
  list_to_map [ ("low", 0); ("nominal", 1); ("high", 2) ].

(** Lines 153-159. *)
Definition warnings (w : widgets) : list string :=
  let warnings := [] in
  let warnings :=
    if Py.lt (brightness w) 300 || Py.gt (brightness w) 450
    then warnings ++ ["⚠️ Brightness outside 300–450 K!"] else warnings in
  let warnings :=
    if Py.lt (bright_t31 w) 290 || Py.gt (bright_t31 w) 400
    then warnings ++ ["⚠️ Brightness T31 outside 290–400 K!"] else warnings in
  let warnings :=
    if Py.lt (frp w) 0 || Py.gt (frp w) 100
    then warnings ++ ["⚠️ FRP outside 0–100 MW!"] else warnings in
  warnings.

(** Line 164, the single row of the array. *)
Definition input_array (w : widgets) (confidence_val : Z) : list float :=
  [ brightness w; bright_t31 w; frp w; scan w; track w;
    float_of_int confidence_val ].

(** Lines 183-188. *)
Definition fire_types : gmap Z string :=
  list_to_map [ (0, "Vegetation Fire 🌿🔥");
                (2, "Static Land Source 🏭🔥");
                (3, "Offshore Fire 🌊🔥") ].

Definition fire_type (prediction : Z) : string :=
  default "Unknown Fire Type ❓" (fire_types !! prediction).

(** [max_proba if max_proba else 1.0] *)
Definition saved_confidence (max_proba : option float) : float :=
  match max_proba with
  | Some p => if Py.truthy p then p else 1%float
  | None => 1%float
  end.

(** The list operations of lines 197-199 on [st.session_state.history]. *)
Definition history_append (e : Entry.t) : script unit :=
  v ← get_attr "history";
  match v with
  | VList h => set_attr "history" (VList (h ++ [e]))
  | _ => raise (AttributeError "append")
  end.

Definition history_len : script nat :=
  v ← get_attr "history";
  match v with
  | VList h => mret (length h)
  | VStr s => mret (String.length s)
  | VFloat _ => raise (TypeError "len")
  end.

Definition history_pop0 : script unit :=
  v ← get_attr "history";
  match v with
  | VList (_ :: h) => set_attr "history" (VList h)
  | VList [] => raise (IndexError "pop from empty list")
  | _ => raise (AttributeError "pop")
  end.

(** Lines 197-199. *)
Definition save_to_history (e : Entry.t) : script unit :=
  history_append e;;
  n ← history_len;
  when (10 <? n)%nat history_pop0.

(** Lines 175-181. *)
Definition get_max_proba (m : artifacts) (scaled_input : list float)
    : script (option float) :=
  try_except
    (emit (model_predict_proba scaled_input);;
     prediction_proba ← lift (predict_proba m scaled_input);
     emit (st_write (Probabilities prediction_proba));;
     match Py.max prediction_proba with
     | Some p => mret (Some p)
     | None => raise (ValueError "max() arg is an empty sequence")
     end)
    is_AttributeError
    (fun _ => emit (st_write NoPredictProba);; mret None).

(** [st.progress(value)], line 194. The call is refused, by an exception,
    unless [value] is a Python float between 0.0 and 1.0; the text of that
    exception embeds the value and is not modelled. *)
Definition progress_accepts (d : dtype) (value : float) : bool :=
  match d with
  | float64 => Py.le 0 value && Py.le value 1
  | float32 => false
  end.

Definition progress (d : dtype) (value : float) : script unit :=
  emit (st_progress value);;
  if progress_accepts d value then mret tt
  else raise (OtherError "Progress Value has invalid value or type").

(** Lines 172-199 and 251-252; the fun fact, the quote and the chart that
    follow line 199 only draw. *)
Definition predict_and_record (m : artifacts) (scaled_input : list float)
    : script unit :=
  try_except
    (emit (model_predict scaled_input);;
     prediction ← lift (predict m scaled_input);
     emit (st_write (RawPrediction prediction));;
     max_proba ← get_max_proba m scaled_input;
     let result := fire_type prediction in
     emit (st_markdown (PredictionBox result));;
     match max_proba with
     | Some p =>
         when (Py.truthy p)
           (emit (st_markdown (ConfidenceLine p));;
            progress (proba_dtype m) p)
     | None => mret tt
     end;;
     save_to_history (Entry.mk result (saved_confidence max_proba)))
    is_Exception
    (fun e => emit (st_error ("🚨 Error during prediction: " +:+ str e))).

(** Lines 164-169. *)
Definition scale (m : artifacts) (input_array : list float)
    : script (list float) :=
  try_except
    (emit (scaler_transform input_array);;
     lift (transform m input_array))
    is_Exception
    (fun e =>
       emit (st_error ("🚨 Error scaling input data: " +:+ str e));;
       st_stop).

(** Lines 147-252, the body of [if submitted:]. *)
Definition process_prediction (m : artifacts) (w : widgets) : script unit :=
  confidence_val ←
    match confidence_map !! confidence w with
    | Some c => mret c
    | None => raise (KeyError (confidence w))
    end;
  let warnings := warnings w in
  when (negb (bool_decide (warnings = [])))
    (emit (st_warning (join " " warnings)));;
  scaled_input ← scale m (input_array w confidence_val);
  predict_and_record m scaled_input.

(** One execution of the script. *)
Definition app (m : artifacts) (w : widgets) : script unit :=
  init_history;;
  sidebar_history;;
  when (reset w) reset_inputs;;
  when (submitted w) (process_prediction m w).

(** The session state after one run, and after a sequence of runs. *)
Definition state_after (m : artifacts) (w : widgets) (ss : session_state)
    : session_state :=
  (app m w ss).1.2.

Definition trace (m : artifacts) (w : widgets) (ss : session_state)
    : list call :=
  (app m w ss).2.

Definition ending (m : artifacts) (w : widgets) (ss : session_state)
    : outcome unit :=
  (app m w ss).1.1.

Fixpoint session (m : artifacts) (ws : list widgets) (ss : session_state)
    : session_state :=
  match ws with
  | [] => ss
  | w :: rest => session m rest (state_after m w ss)
  end.

(** The history a run finds, as the sidebar lists it (lines 98-101). *)
Definition history (ss : session_state) : list Entry.t :=
  match ss !! "history" with
  | Some (VList h) => h
  | _ => []
  end.

(** ** What the properties are stated with *)

(** A state predicate kept by a script whatever way it ends. *)
Definition preserves {A} (P : session_state -> Prop) (c : script A) : Prop :=
  forall ss, P ss -> P (c ss).1.2.

(** The state once lines 71-72 have run. *)
Definition with_history (ss : session_state) : session_state :=
  if bool_decide (is_Some (ss !! "history")) then ss
  else <["history" := VList []]> ss.

(** The list that lines 197-199 leave, from the list [h] they find. *)
Definition saved (h : list Entry.t) (e : Entry.t) : list Entry.t :=
  if (10 <? length (h ++ [e]))%nat then drop 1 (h ++ [e]) else h ++ [e].

(** What lines 191-194 show for a given [max_proba]. *)
Definition confidence_calls (max_proba : option float) : list call :=
  match max_proba with
  | Some p =>
      if Py.truthy p then [st_markdown (ConfidenceLine p); st_progress p]
      else []
  | None => []
  end.

(** [st.progress] is not called on [max_proba], or accepts it. *)
Definition progress_passes (m : artifacts) (max_proba : option float) : Prop :=
  match max_proba with
  | Some p =>
      Py.truthy p = true -> progress_accepts (proba_dtype m) p = true
  | None => True
  end.

(** The calls of lines 98-101 on a history that is the list [h]. *)
Fixpoint quest_calls (idx : nat) (h : list Entry.t) : list call :=
  match h with
  | [] => []
  | entry :: rest =>
      st_markdown
        (QuestLine (idx + 1) (Entry.result entry) (Entry.confidence entry))
      :: quest_calls (S idx) rest
  end.

Definition sidebar_calls (h : list Entry.t) : list call :=
  match h with
  | [] => []
  | _ => st_markdown QuestHistoryHeading :: quest_calls 0 h
  end.

(** The call of [st.warning] at lines 160-161. *)
Definition warning_calls (w : widgets) : list call :=
  if bool_decide (warnings w = []) then []
  else [st_warning (join " " (warnings w))].

(** The part of a submission that follows the validation (from line 164). *)
Definition inference (m : artifacts) (w : widgets) (confidence_val : Z)
    : script unit :=
  scaled_input ← scale m (input_array w confidence_val);
  predict_and_record m scaled_input.

(** The rows handed to [scaler.transform] and the bodies handed to
    [st.warning], in order. *)
Definition scaler_inputs (t : list call) : list (list float) :=
  omap (fun c => match c with scaler_transform v => Some v | _ => None end) t.

Definition warnings_shown (t : list call) : list string :=
  omap (fun c => match c with st_warning body => Some body | _ => None end) t.

(** Calls that are neither of the two. *)
Definition downstream (c : call) : Prop :=
  match c with
  | scaler_transform _ | st_warning _ => False
  | _ => True
  end.

Definition not_warning (c : call) : Prop :=
  match c with
  | st_warning _ => False
  | _ => True
  end.

(** A script all of whose calls satisfy [Q]. *)
Definition emits {A} (Q : call -> Prop) (c : script A) : Prop :=
  forall ss, Forall Q (c ss).2.

(** The state that lines 130-135 leave. *)
Definition reset_state (ss : session_state) : session_state :=
  <["confidence" := VStr "low"]>
    (<["track" := VFloat 1]>
      (<["scan" := VFloat 1]>
        (<["frp" := VFloat 15]>
          (<["bright_t31" := VFloat 290]>
            (<["brightness" := VFloat 300]> ss))))).

Definition history_ok (ss : session_state) : Prop :=
  exists h, ss !! "history" = Some (VList h) /\ (length h <= 10)%nat.

Definition start_ok (ss : session_state) : Prop :=
  ss !! "history" = None \/ history_ok ss.

(** The history attribute, when set, holds a list. *)
Definition list_history (ss : session_state) : Prop :=
  ss !! "history" = None \/ exists h, ss !! "history" = Some (VList h).

(** Objects used to run the script on concrete inputs. *)
Definition scenario : widgets := {|
  brightness := 320; bright_t31 := 300; frp := 20; scan := 1; track := 1;
  confidence := "nominal"; submitted := true; reset := false
|}.

Definition hot_scenario : widgets := {|
  brightness := 500; bright_t31 := 300; frp := 20; scan := 1; track := 1;
  confidence := "high"; submitted := true; reset := false
|}.

Definition reset_click : widgets := {|
  brightness := 320; bright_t31 := 300; frp := 20; scan := 1; track := 1;
  confidence := "nominal"; submitted := false; reset := true
|}.

(** A classifier with probabilities, one without [predict_proba], one whose
    probabilities are all zero, and a scaler that rejects its input. *)
Definition plain_model : artifacts := {|
  transform := fun v => Ok v;
  predict := fun _ => Ok 2;
  predict_proba := fun _ => Ok [0.25%float; 0.75%float];
  proba_dtype := float64
|}.

Definition no_proba_model : artifacts := {|
  transform := fun v => Ok v;
  predict := fun _ => Ok 0;
  predict_proba := fun _ => Err (AttributeError "predict_proba");
  proba_dtype := float64
|}.

Definition zero_proba_model : artifacts := {|
  transform := fun v => Ok v;
  predict := fun _ => Ok 3;
  predict_proba := fun _ => Ok [0%float; 0%float];
  proba_dtype := float64
|}.

Definition broken_scaler : artifacts := {|
  transform := fun _ => Err (ValueError "X has 6 features, but 5 are expected");
  predict := fun _ => Ok 0;
  predict_proba := fun _ => Ok [1%float];
  proba_dtype := float64
|}.

Definition entry_n (n : Z) : Entry.t :=
  Entry.mk "Offshore Fire 🌊🔥" (float_of_int n).

Definition ten_entries : list Entry.t :=
  map entry_n [0; 1; 2; 3; 4; 5; 6; 7; 8; 9].

Definition full_session : session_state :=
  {[ "history" := VList ten_entries ]}.

(** ** The rest of the script *)

(** Lines 10-15: what the two [joblib.load] calls give. A missing file
    raises [FileNotFoundError], which the script catches; anything else
    they raise is not caught. *)
Inductive loading : Type :=
| Loaded (m : artifacts)
| FileNotFound
| LoadRaises (e : exn).

Definition load_artifacts (l : loading) : script artifacts :=
  match l with
  | Loaded m => mret m
  | FileNotFound =>
      emit (st_error "🔥 Model or scaler file not found! Ensure 'best_fire_detection_model.pkl' and 'scaler.pkl' are in the same directory.");;
      st_stop
  | LoadRaises e => raise e
  end.

(** The script from its first line. *)
Definition main (l : loading) (w : widgets) : script unit :=
  m ← load_artifacts l;
  app m w.

(** [min(x, y)] on two numbers: [y] only when it is strictly smaller. *)
Definition py_min (x y : float) : float :=
  if Py.lt y x then y else x.

(** Lines 209-212, the values of the radar chart. *)
Definition chart_values (w : widgets) : list float :=
  [ py_min (brightness w / 1000) 1; py_min (bright_t31 w / 1000) 1;
    py_min (frp w / 1000) 1; py_min (scan w / 10) 1;
    py_min (track w / 10) 1 ]%float.

(** A float that is not NaN. *)
Definition is_number (x : float) : bool := PrimFloat.eqb x x.

(** Two states with the same history attribute, and a script that reads
    nothing else of the state. *)
Definition same_history (ss1 ss2 : session_state) : Prop :=
  ss1 !! "history" = ss2 !! "history".

Definition history_only {A} (c : script A) : Prop :=
  forall ss1 ss2,
    same_history ss1 ss2 ->
    (c ss1).1.1 = (c ss2).1.1 /\
    (c ss1).2 = (c ss2).2 /\
    same_history (c ss1).1.2 (c ss2).1.2.

(** A submission the form can send: the predict button, with one of the
    options of the selectbox. *)
Definition submission (w : widgets) : Prop :=
  submitted w = true /\ reset w = false /\
  is_Some (confidence_map !! confidence w).

(** A model whose calls all succeed: the scaler and [predict] return, and
    [predict_proba] returns at least one probability, all of them float64
    values between 0.0 and 1.0, or is absent. *)
Definition dependable (m : artifacts) : Prop :=
  (forall v, exists s, transform m v = Ok s) /\
  (forall s, exists p, predict m s = Ok p) /\
  (forall s,
     (exists q probs,
        predict_proba m s = Ok (q :: probs) /\
        proba_dtype m = float64 /\
        Forall (fun x => Py.le 0 x = true /\ Py.le x 1 = true)
          (q :: probs)) \/
     (exists msg, predict_proba m s = Err (AttributeError msg))).

(** More objects to run the script on: a classifier that raises, one whose
    [predict_proba] raises, one that returns no probability, one whose
    probabilities are float32 values, and one whose probability is above 1. *)
Definition failing_classifier : artifacts := {|
  transform := fun v => Ok v;
  predict := fun _ => Err (ValueError "Input contains NaN");
  predict_proba := fun _ => Ok [1%float];
  proba_dtype := float64
|}.

Definition failing_proba_model : artifacts := {|
  transform := fun v => Ok v;
  predict := fun _ => Ok 0;
  predict_proba := fun _ => Err (ValueError "Input contains NaN");
  proba_dtype := float64
|}.

Definition empty_proba_model : artifacts := {|
  transform := fun v => Ok v;
  predict := fun _ => Ok 0;
  predict_proba := fun _ => Ok [];
  proba_dtype := float64
|}.



(** The labels a run shows in the prediction box, in order. *)
Definition labels_shown (t : list call) : list string :=
  omap (fun c => match c with
                 | st_markdown (PredictionBox result) => Some result
                 | _ => None
                 end) t.

Definition not_label (c : call) : Prop :=
  match c with
  | st_markdown (PredictionBox _) => False
  | _ => True
  end.

Definition cold_scenario : widgets := {|
  brightness := 250; bright_t31 := 280; frp := 150; scan := 1; track := 1;
  confidence := "low"; submitted := true; reset := false
|}.

(** The page as it loads, no button pressed. *)
Definition page_load : widgets := {|
  brightness := 300; bright_t31 := 290; frp := 15; scan := 1; track := 1;
  confidence := "low"; submitted := false; reset := false
|}.

(** What every entry saved by the script satisfies. *)
Definition well_formed_entry (e : Entry.t) : Prop :=
  Entry.result e ∈ ["Vegetation Fire 🌿🔥"; "Static Land Source 🏭🔥";
                    "Offshore Fire 🌊🔥"; "Unknown Fire Type ❓"] /\
  Py.truthy (Entry.confidence e) = true.

(** * Properties *)

(** ** Float comparisons *)

Section FloatOrder.

Lemma SFcompare_swap (x y : spec_float) :
  SFcompare y x = option_map CompOpp (SFcompare x y).
Proof.
  destruct x as [sx|sx| |sx mx ex], y as [sy|sy| |sy my ey]; simpl;
    try reflexivity;
    try (destruct sx; reflexivity);
    try (destruct sy; reflexivity);
    try (destruct sx, sy; reflexivity).
  destruct sx, sy; simpl; try reflexivity;
    rewrite (Z.compare_antisym ex ey);
    destruct (ex ?= ey)%Z; simpl; try reflexivity;
    change (Pos.compare_cont Eq my mx)
      with (Pos.compare_cont (CompOpp Eq) my mx);
    rewrite <- (Pos.compare_cont_antisym mx my Eq);
    try rewrite CompOpp_involutive; reflexivity.
Qed.

(** [x <= y] excludes [y < x]. *)
Lemma le_not_gt (x y : float) : Py.le x y = true -> Py.gt x y = false.
Proof.
  unfold Py.le, Py.gt. rewrite leb_spec, ltb_spec.
  unfold SFleb, SFltb. rewrite (SFcompare_swap (Prim2SF x) (Prim2SF y)).
  destruct (SFcompare (Prim2SF x) (Prim2SF y)) as [[]|]; simpl; congruence.
Qed.

Lemma le_not_lt (x y : float) : Py.le x y = true -> Py.lt y x = false.
Proof. exact (le_not_gt x y). Qed.

End FloatOrder.

(** ** Running scripts *)

Lemma run_bind {A B} (c : script A) (k : A -> script B) (ss : session_state) :
  (c ≫= k) ss =
  match c ss with
  | (Return a, ss1, t1) =>
      match k a ss1 with
      | (o, ss2, t2) => (o, ss2, t1 ++ t2)
      end
  | (Raise e, ss1, t1) => (Raise e, ss1, t1)
  | (Stop, ss1, t1) => (Stop, ss1, t1)
  | (Rerun, ss1, t1) => (Rerun, ss1, t1)
  end.
Proof. reflexivity. Qed.

Lemma run_bind_return {A B} (c : script A) (k : A -> script B) ss a ss1 t1 :
  c ss = (Return a, ss1, t1) ->
  (c ≫= k) ss = ((k a ss1).1.1, (k a ss1).1.2, t1 ++ (k a ss1).2).
Proof.
  intros Hc. rewrite run_bind, Hc. destruct (k a ss1) as [[o ss2] t2].
  reflexivity.
Qed.

Lemma run_bind_emit {B} (c : call) (k : unit -> script B) ss :
  (emit c ≫= k) ss = ((k tt ss).1.1, (k tt ss).1.2, c :: (k tt ss).2).
Proof. exact (run_bind_return (emit c) k ss tt ss [c] eq_refl). Qed.

Lemma run_bind_mret {A B} (a : A) (k : A -> script B) ss :
  (mret a ≫= k) ss = k a ss.
Proof.
  rewrite (run_bind_return (mret a) k ss a ss [] eq_refl).
  destruct (k a ss) as [[o ss2] t2]. reflexivity.
Qed.

Section Preserves.
Context (P : session_state -> Prop).

Lemma preserves_ret {A} (a : A) : preserves P (mret a).
Proof. intros ss H. exact H. Qed.

Lemma preserves_raise {A} (e : exn) : preserves P (@raise A e).
Proof. intros ss H. exact H. Qed.

Lemma preserves_emit (c : call) : preserves P (emit c).
Proof. intros ss H. exact H. Qed.

Lemma preserves_stop {A} : preserves P (@st_stop A).
Proof. intros ss H. exact H. Qed.

Lemma preserves_rerun {A} : preserves P (@st_experimental_rerun A).
Proof. intros ss H. exact H. Qed.

Lemma preserves_lift {A} (r : result A) : preserves P (lift r).
Proof. destruct r; [apply preserves_ret | apply preserves_raise]. Qed.

Lemma preserves_bind {A B} (c : script A) (k : A -> script B) :
  preserves P c -> (forall a, preserves P (k a)) -> preserves P (c ≫= k).
Proof.
  intros Hc Hk ss H. rewrite run_bind.
  specialize (Hc ss H).
  destruct (c ss) as [[[a|e| |] ss1] t1]; simpl in *; try exact Hc.
  specialize (Hk a ss1 Hc).
  destruct (k a ss1) as [[o ss2] t2]. exact Hk.
Qed.

Lemma preserves_try {A} (body : script A) catches (handler : exn -> script A) :
  preserves P body -> (forall e, preserves P (handler e)) ->
  preserves P (try_except body catches handler).
Proof.
  intros Hb Hh ss H. unfold try_except.
  specialize (Hb ss H).
  destruct (body ss) as [[[a|e| |] ss1] t1]; simpl in *; try exact Hb.
  destruct (catches e); [|exact Hb].
  specialize (Hh e ss1 Hb).
  destruct (handler e ss1) as [[o ss2] t2]. exact Hh.
Qed.

Lemma preserves_when (b : bool) (c : script unit) :
  preserves P c -> preserves P (when b c).
Proof. intros Hc. destruct b; [exact Hc | apply preserves_ret]. Qed.

End Preserves.

Create HintDb preserves.
#[local] Hint Resolve preserves_ret preserves_raise preserves_emit
  preserves_stop preserves_rerun preserves_lift preserves_when : preserves.

(** ** The session state around the history *)

Lemma init_history_run ss :
  init_history ss = (Return tt, with_history ss, []).
Proof.
  unfold init_history, with_history. rewrite run_bind. simpl.
  destruct (bool_decide (is_Some (ss !! "history"))); reflexivity.
Qed.

Lemma with_history_idem ss : with_history (with_history ss) = with_history ss.
Proof.
  unfold with_history.
  destruct (bool_decide (is_Some (ss !! "history"))) eqn:E.
  - rewrite E. reflexivity.
  - rewrite lookup_insert_eq. reflexivity.
Qed.

Lemma history_with_history ss : history (with_history ss) = history ss.
Proof.
  unfold with_history, history.
  destruct (bool_decide (is_Some (ss !! "history"))) eqn:E; [reflexivity|].
  rewrite lookup_insert_eq.
  apply bool_decide_eq_false in E.
  destruct (ss !! "history") as [v|] eqn:L; [|reflexivity].
  exfalso. apply E. eexists. reflexivity.
Qed.

Lemma with_history_other ss k :
  k <> "history" -> with_history ss !! k = ss !! k.
Proof.
  intros Hk. unfold with_history.
  destruct (bool_decide (is_Some (ss !! "history"))); [reflexivity|].
  apply lookup_insert_ne. congruence.
Qed.

Lemma with_history_present ss h :
  ss !! "history" = Some (VList h) -> with_history ss = ss.
Proof.
  intros H. unfold with_history. rewrite H.
  rewrite bool_decide_eq_true_2; [reflexivity | eexists; reflexivity].
Qed.

Lemma get_attr_run ss name v :
  ss !! name = Some v -> get_attr name ss = (Return v, ss, []).
Proof. intros H. unfold get_attr. rewrite H. reflexivity. Qed.

Lemma history_append_run ss h e :
  ss !! "history" = Some (VList h) ->
  history_append e ss = (Return tt, <["history" := VList (h ++ [e])]> ss, []).
Proof.
  intros H. unfold history_append.
  rewrite (run_bind_return _ _ _ _ _ _ (get_attr_run _ _ _ H)). reflexivity.
Qed.

Lemma history_len_run ss h :
  ss !! "history" = Some (VList h) ->
  history_len ss = (Return (length h), ss, []).
Proof.
  intros H. unfold history_len.
  rewrite (run_bind_return _ _ _ _ _ _ (get_attr_run _ _ _ H)). reflexivity.
Qed.

Lemma history_pop0_run ss x h :
  ss !! "history" = Some (VList (x :: h)) ->
  history_pop0 ss = (Return tt, <["history" := VList h]> ss, []).
Proof.
  intros H. unfold history_pop0.
  rewrite (run_bind_return _ _ _ _ _ _ (get_attr_run _ _ _ H)). reflexivity.
Qed.

Lemma save_to_history_run ss h e :
  ss !! "history" = Some (VList h) ->
  save_to_history e ss = (Return tt, <["history" := VList (saved h e)]> ss, []).
Proof.
  intros H. unfold save_to_history, saved.
  rewrite (run_bind_return _ _ _ _ _ _ (history_append_run _ _ e H)).
  assert (L : <["history" := VList (h ++ [e])]> ss !! "history"
              = Some (VList (h ++ [e]))) by apply lookup_insert_eq.
  rewrite (run_bind_return _ _ _ _ _ _ (history_len_run _ _ L)).
  destruct (10 <? length (h ++ [e]))%nat eqn:E; simpl.
  - destruct (h ++ [e]) as [|x l] eqn:HL; [destruct h; discriminate|].
    rewrite (history_pop0_run _ x l L). simpl.
    rewrite insert_insert_eq, drop_0. reflexivity.
  - reflexivity.
Qed.

Lemma saved_length h e :
  (length h <= 10)%nat -> (length (saved h e) <= 10)%nat.
Proof.
  intros H. unfold saved.
  destruct (10 <? length (h ++ [e]))%nat eqn:E.
  - rewrite length_drop, length_app. simpl. lia.
  - apply Nat.ltb_ge in E. exact E.
Qed.

Lemma saved_full h e :
  length h = 10%nat -> saved h e = drop 1 h ++ [e].
Proof.
  intros H. unfold saved.
  rewrite length_app, H. simpl.
  destruct h; [discriminate|]. simpl. rewrite !drop_0. reflexivity.
Qed.

Lemma saved_room h e :
  (length h < 10)%nat -> saved h e = h ++ [e].
Proof.
  intros H. unfold saved.
  destruct (10 <? length (h ++ [e]))%nat eqn:E; [|reflexivity].
  apply Nat.ltb_lt in E. rewrite length_app in E. simpl in E. lia.
Qed.

(** ** The sidebar *)

Lemma quest_lines_run idx h ss :
  quest_lines idx h ss = (Return tt, ss, quest_calls idx h).
Proof.
  revert idx. induction h as [|entry rest IH]; intros idx; [reflexivity|].
  simpl quest_lines. rewrite run_bind_emit, IH. reflexivity.
Qed.

Lemma sidebar_history_run ss h :
  ss !! "history" = Some (VList h) ->
  sidebar_history ss = (Return tt, ss, sidebar_calls h).
Proof.
  intros H. unfold sidebar_history.
  rewrite (run_bind_return _ _ _ _ _ _ (get_attr_run _ _ _ H)).
  destruct h as [|entry rest]; [reflexivity|].
  unfold truth. rewrite bool_decide_eq_false_2 by discriminate.
  simpl when. rewrite run_bind_emit.
  change (quest_lines 0 (entry :: rest) ss)
    with ((emit (st_markdown
                   (QuestLine 1 (Entry.result entry) (Entry.confidence entry)))
           ≫= fun _ => quest_lines 1 rest) ss).
  rewrite run_bind_emit, quest_lines_run. reflexivity.
Qed.

Lemma sidebar_history_state ss : (sidebar_history ss).1.2 = ss.
Proof.
  unfold sidebar_history, get_attr. rewrite run_bind.
  destruct (ss !! "history") as [v|]; [|reflexivity].
  destruct (truth v); [|reflexivity]. simpl when. rewrite run_bind_emit.
  destruct v as [x|s|h]; try reflexivity.
  pose proof (quest_lines_run 0 h ss) as Hq.
  destruct (quest_lines 0 h ss) as [[o s2] t2]. inversion Hq. reflexivity.
Qed.

Lemma sidebar_history_preserves (P : session_state -> Prop) :
  preserves P sidebar_history.
Proof. intros ss H. rewrite sidebar_history_state. exact H. Qed.

(** ** The steps of a submission *)

Lemma scale_run m v ss :
  scale m v ss =
  match transform m v with
  | Ok scaled => (Return scaled, ss, [scaler_transform v])
  | Err e =>
      (Stop, ss,
       [scaler_transform v;
        st_error ("🚨 Error scaling input data: " +:+ str e)])
  end.
Proof.
  unfold scale, try_except. rewrite run_bind_emit.
  destruct (transform m v) as [scaled|e]; reflexivity.
Qed.

Lemma get_max_proba_run m s ss :
  get_max_proba m s ss =
  match predict_proba m s with
  | Ok probs =>
      match Py.max probs with
      | Some p =>
          (Return (Some p), ss,
           [model_predict_proba s; st_write (Probabilities probs)])
      | None =>
          (Raise (ValueError "max() arg is an empty sequence"), ss,
           [model_predict_proba s; st_write (Probabilities probs)])
      end
  | Err e =>
      if is_AttributeError e
      then (Return None, ss, [model_predict_proba s; st_write NoPredictProba])
      else (Raise e, ss, [model_predict_proba s])
  end.
Proof.
  unfold get_max_proba, try_except. rewrite run_bind_emit.
  destruct (predict_proba m s) as [probs|e]; simpl.
  - rewrite run_bind_mret, run_bind_emit.
    destruct (Py.max probs); reflexivity.
  - destruct (is_AttributeError e); reflexivity.
Qed.

Lemma progress_run d q ss :
  progress d q ss =
  if progress_accepts d q then (Return tt, ss, [st_progress q])
  else (Raise (OtherError "Progress Value has invalid value or type"), ss,
        [st_progress q]).
Proof.
  unfold progress. rewrite run_bind_emit.
  destruct (progress_accepts d q); reflexivity.
Qed.

Lemma predict_and_record_ok m s ss h p mp t :
  predict m s = Ok p ->
  get_max_proba m s ss = (Return mp, ss, t) ->
  progress_passes m mp ->
  ss !! "history" = Some (VList h) ->
  predict_and_record m s ss =
  (Return tt,
   <["history" :=
       VList (saved h (Entry.mk (fire_type p) (saved_confidence mp)))]> ss,
   [model_predict s; st_write (RawPrediction p)] ++ t ++
   [st_markdown (PredictionBox (fire_type p))] ++ confidence_calls mp).
Proof.
  intros Hp Hmp Hpass Hh. unfold predict_and_record, try_except.
  rewrite run_bind_emit, Hp. simpl lift.
  rewrite run_bind_mret, run_bind_emit.
  rewrite (run_bind_return _ _ _ _ _ _ Hmp). cbv zeta.
  rewrite run_bind_emit.
  set (e := Entry.mk (fire_type p) (saved_confidence mp)).
  pose proof (save_to_history_run ss h e Hh) as Hs.
  destruct mp as [q|]; simpl confidence_calls.
  - destruct (Py.truthy q) eqn:Hq; simpl when.
    + rewrite run_bind, run_bind_emit, progress_run.
      simpl in Hpass. rewrite (Hpass Hq). cbn [fst snd].
      rewrite Hs. reflexivity.
    + rewrite run_bind_mret, Hs. simpl. reflexivity.
  - rewrite run_bind_mret, Hs. simpl. reflexivity.
Qed.

Lemma predict_and_record_preserves (P : session_state -> Prop) m s :
  (forall e, preserves P (save_to_history e)) ->
  preserves P (predict_and_record m s).
Proof.
  intros Hs. unfold predict_and_record, get_max_proba.
  apply preserves_try; [|intros e; auto with preserves].
  repeat (first
    [ apply Hs
    | apply preserves_when
    | apply preserves_bind; [|intros ?]
    | apply preserves_try; [|intros ?]
    | match goal with |- preserves _ (match ?x with _ => _ end) =>
        destruct x end
    | solve [auto with preserves] ]).
Qed.

Lemma process_prediction_run m w ss c :
  confidence_map !! confidence w = Some c ->
  process_prediction m w ss =
  ((inference m w c ss).1.1, (inference m w c ss).1.2,
   warning_calls w ++ (inference m w c ss).2).
Proof.
  intros Hc. unfold process_prediction, warning_calls. rewrite Hc.
  rewrite run_bind_mret. cbv zeta. fold (inference m w c).
  destruct (bool_decide (warnings w = [])); simpl when.
  - rewrite run_bind_mret. destruct (inference m w c ss) as [[o s2] t2].
    reflexivity.
  - rewrite run_bind_emit. reflexivity.
Qed.

Lemma with_history_lookup ss :
  list_history ss -> with_history ss !! "history" = Some (VList (history ss)).
Proof.
  intros [Hn | (h & Hh)].
  - unfold with_history, history. rewrite Hn.
    rewrite bool_decide_eq_false_2 by (intros [v Hv]; discriminate).
    apply lookup_insert_eq.
  - rewrite (with_history_present ss h Hh). unfold history. rewrite Hh.
    reflexivity.
Qed.

(** Lines 71-101 on a state whose history, when set, is a list. *)
Lemma app_prologue m w ss :
  list_history ss ->
  app m w ss =
  let rest :=
    (when (reset w) reset_inputs;;
     when (submitted w) (process_prediction m w)) (with_history ss) in
  (rest.1.1, rest.1.2, sidebar_calls (history ss) ++ rest.2).
Proof.
  intros Hl. unfold app.
  rewrite (run_bind_return _ _ _ _ _ _ (init_history_run ss)).
  rewrite (run_bind_return _ _ _ _ _ _
             (sidebar_history_run _ _ (with_history_lookup ss Hl))).
  reflexivity.
Qed.

Lemma app_submitted m w ss c :
  list_history ss ->
  submitted w = true -> reset w = false ->
  confidence_map !! confidence w = Some c ->
  app m w ss =
  ((inference m w c (with_history ss)).1.1,
   (inference m w c (with_history ss)).1.2,
   sidebar_calls (history ss) ++ warning_calls w ++
   (inference m w c (with_history ss)).2).
Proof.
  intros Hl Hs Hr Hc. rewrite (app_prologue m w ss Hl). rewrite Hs, Hr.
  simpl when. rewrite run_bind_mret, (process_prediction_run m w _ c Hc).
  reflexivity.
Qed.

(** ** What a trace contains *)

Lemma scaler_inputs_cons c t :
  scaler_inputs (c :: t) =
  match c with
  | scaler_transform v => v :: scaler_inputs t
  | _ => scaler_inputs t
  end.
Proof. destruct c; reflexivity. Qed.

Lemma warnings_shown_cons c t :
  warnings_shown (c :: t) =
  match c with
  | st_warning body => body :: warnings_shown t
  | _ => warnings_shown t
  end.
Proof. destruct c; reflexivity. Qed.

Lemma scaler_inputs_app t1 t2 :
  scaler_inputs (t1 ++ t2) = scaler_inputs t1 ++ scaler_inputs t2.
Proof. apply omap_app. Qed.

Lemma warnings_shown_app t1 t2 :
  warnings_shown (t1 ++ t2) = warnings_shown t1 ++ warnings_shown t2.
Proof. apply omap_app. Qed.

Lemma scaler_inputs_downstream t : Forall downstream t -> scaler_inputs t = [].
Proof.
  induction 1 as [|c t Hc _ IH]; [reflexivity|].
  rewrite scaler_inputs_cons, IH.
  destruct c; simpl in Hc; try reflexivity; contradiction.
Qed.

Lemma warnings_shown_downstream t :
  Forall downstream t -> warnings_shown t = [].
Proof.
  induction 1 as [|c t Hc _ IH]; [reflexivity|].
  rewrite warnings_shown_cons, IH.
  destruct c; simpl in Hc; try reflexivity; contradiction.
Qed.

Section Emits.
Context (Q : call -> Prop).

Lemma emits_ret {A} (a : A) : emits Q (mret a).
Proof. intros ss. constructor. Qed.

Lemma emits_raise {A} (e : exn) : emits Q (@raise A e).
Proof. intros ss. constructor. Qed.

Lemma emits_lift {A} (r : result A) : emits Q (lift r).
Proof. destruct r; [apply emits_ret | apply emits_raise]. Qed.

Lemma emits_emit (c : call) : Q c -> emits Q (emit c).
Proof. intros H ss. repeat constructor. exact H. Qed.

Lemma emits_get_attr name : emits Q (get_attr name).
Proof. intros ss. unfold get_attr. destruct (ss !! name); constructor. Qed.

Lemma emits_set_attr name v : emits Q (set_attr name v).
Proof. intros ss. constructor. Qed.

Lemma emits_bind {A B} (c : script A) (k : A -> script B) :
  emits Q c -> (forall a, emits Q (k a)) -> emits Q (c ≫= k).
Proof.
  intros Hc Hk ss. rewrite run_bind. specialize (Hc ss).
  destruct (c ss) as [[[a|e| |] ss1] t1]; simpl in *; try exact Hc.
  specialize (Hk a ss1).
  destruct (k a ss1) as [[o ss2] t2]. simpl in *.
  apply Forall_app. split; assumption.
Qed.

Lemma emits_try {A} (body : script A) catches (handler : exn -> script A) :
  emits Q body -> (forall e, emits Q (handler e)) ->
  emits Q (try_except body catches handler).
Proof.
  intros Hb Hh ss. unfold try_except. specialize (Hb ss).
  destruct (body ss) as [[[a|e| |] ss1] t1]; simpl in *; try exact Hb.
  destruct (catches e); [|exact Hb].
  specialize (Hh e ss1).
  destruct (handler e ss1) as [[o ss2] t2]. simpl in *.
  apply Forall_app. split; assumption.
Qed.

Lemma emits_when (b : bool) (c : script unit) :
  emits Q c -> emits Q (when b c).
Proof. intros Hc. destruct b; [exact Hc | apply emits_ret]. Qed.

Lemma emits_has_attr name : emits Q (has_attr name).
Proof. intros ss. constructor. Qed.

Lemma emits_stop {A} : emits Q (@st_stop A).
Proof. intros ss. constructor. Qed.

Lemma emits_rerun {A} : emits Q (@st_experimental_rerun A).
Proof. intros ss. constructor. Qed.

End Emits.

Create HintDb emits.
#[local] Hint Resolve emits_ret emits_raise emits_lift emits_get_attr
  emits_set_attr emits_when emits_has_attr emits_stop emits_rerun : emits.

Lemma emits_weaken {A} (Q Q' : call -> Prop) (c : script A) :
  (forall x, Q x -> Q' x) -> emits Q c -> emits Q' c.
Proof. intros HQ Hc ss. exact (Forall_impl _ _ _ (Hc ss) HQ). Qed.

Ltac emits_step :=
  first
    [ apply emits_emit; exact I
    | apply emits_when
    | apply emits_bind; [|intros ?]
    | apply emits_try; [|intros ?]
    | match goal with
      | |- emits _ (match ?x with _ => _ end) => destruct x
      end
    | solve [auto with emits] ].

Lemma save_to_history_downstream e : emits downstream (save_to_history e).
Proof.
  unfold save_to_history, history_append, history_len, history_pop0.
  repeat emits_step.
Qed.

Lemma predict_and_record_downstream m s :
  emits downstream (predict_and_record m s).
Proof.
  unfold predict_and_record, get_max_proba.
  repeat first [apply save_to_history_downstream | emits_step].
Qed.

(** After the validation the scaler is called once, with the assembled
    row, and nothing that follows calls it or warns again. *)
Lemma inference_trace m w c ss :
  exists rest,
    (inference m w c ss).2 = scaler_transform (input_array w c) :: rest /\
    Forall downstream rest.
Proof.
  unfold inference. rewrite run_bind, scale_run.
  destruct (transform m (input_array w c)) as [scaled|e].
  - pose proof (predict_and_record_downstream m scaled ss) as H.
    destruct (predict_and_record m scaled ss) as [[o ss2] t2].
    eexists. split; [reflexivity | exact H].
  - eexists. split; [reflexivity|]. repeat constructor.
Qed.

Lemma warning_calls_shown w :
  warnings_shown (warning_calls w) =
  if bool_decide (warnings w = []) then [] else [join " " (warnings w)].
Proof. unfold warning_calls. destruct (bool_decide _); reflexivity. Qed.

Lemma warning_calls_scaler w : scaler_inputs (warning_calls w) = [].
Proof. unfold warning_calls. destruct (bool_decide _); reflexivity. Qed.

Lemma quest_calls_downstream idx h : Forall downstream (quest_calls idx h).
Proof.
  revert idx. induction h as [|entry rest IH]; intros idx; simpl;
    constructor; [exact I | apply IH].
Qed.

Lemma sidebar_calls_downstream h : Forall downstream (sidebar_calls h).
Proof.
  destruct h as [|entry rest]; [constructor|].
  constructor; [exact I | apply quest_calls_downstream].
Qed.

Lemma submitted_scaler_inputs m w ss c :
  list_history ss ->
  submitted w = true -> reset w = false ->
  confidence_map !! confidence w = Some c ->
  scaler_inputs (trace m w ss) = [input_array w c].
Proof.
  intros Hl Hs Hr Hc. unfold trace.
  rewrite (app_submitted m w ss c Hl Hs Hr Hc). cbn [fst snd].
  destruct (inference_trace m w c (with_history ss)) as (rest & -> & Hq).
  rewrite !scaler_inputs_app, warning_calls_scaler, scaler_inputs_cons.
  rewrite (scaler_inputs_downstream _ (sidebar_calls_downstream _)).
  rewrite (scaler_inputs_downstream rest Hq). reflexivity.
Qed.

Lemma submitted_warnings_shown m w ss c :
  list_history ss ->
  submitted w = true -> reset w = false ->
  confidence_map !! confidence w = Some c ->
  warnings_shown (trace m w ss) =
  if bool_decide (warnings w = []) then [] else [join " " (warnings w)].
Proof.
  intros Hl Hs Hr Hc. unfold trace.
  rewrite (app_submitted m w ss c Hl Hs Hr Hc). cbn [fst snd].
  destruct (inference_trace m w c (with_history ss)) as (rest & -> & Hq).
  rewrite !warnings_shown_app, warning_calls_shown, warnings_shown_cons.
  rewrite (warnings_shown_downstream _ (sidebar_calls_downstream _)).
  rewrite (warnings_shown_downstream rest Hq). apply app_nil_r.
Qed.

(** ** Runs that do not submit *)

Lemma reset_inputs_run ss : reset_inputs ss = (Rerun, reset_state ss, []).
Proof. reflexivity. Qed.

Lemma app_reset m w ss :
  list_history ss -> reset w = true ->
  app m w ss =
  (Rerun, reset_state (with_history ss), sidebar_calls (history ss)).
Proof.
  intros Hl Hr. rewrite (app_prologue m w ss Hl), Hr. simpl when.
  rewrite run_bind, reset_inputs_run. cbn [fst snd].
  rewrite app_nil_r. reflexivity.
Qed.

Lemma app_idle m w ss :
  list_history ss -> reset w = false -> submitted w = false ->
  app m w ss = (Return tt, with_history ss, sidebar_calls (history ss)).
Proof.
  intros Hl Hr Hs. rewrite (app_prologue m w ss Hl), Hr, Hs. simpl when.
  rewrite run_bind_mret. cbn. rewrite app_nil_r. reflexivity.
Qed.

Lemma app_bad_confidence m w ss :
  list_history ss -> reset w = false -> submitted w = true ->
  confidence_map !! confidence w = None ->
  app m w ss =
  (Raise (KeyError (confidence w)), with_history ss,
   sidebar_calls (history ss)).
Proof.
  intros Hl Hr Hs Hc. rewrite (app_prologue m w ss Hl), Hr, Hs. simpl when.
  rewrite run_bind_mret. unfold process_prediction. rewrite Hc.
  cbn. rewrite app_nil_r. reflexivity.
Qed.

(** ** The bound on the history *)

Lemma with_history_ok ss : start_ok ss -> history_ok (with_history ss).
Proof.
  intros [Hn | (h & Hh & Hl)].
  - unfold with_history. rewrite Hn.
    rewrite bool_decide_eq_false_2 by (intros [v Hv]; discriminate).
    exists []. split; [apply lookup_insert_eq | simpl; lia].
  - rewrite (with_history_present ss h Hh). exists h. split; assumption.
Qed.

Lemma set_attr_history_ok name v :
  name <> "history" -> preserves history_ok (set_attr name v).
Proof.
  intros Hn ss (h & Hh & Hl). exists h. split; [|exact Hl].
  simpl. rewrite lookup_insert_ne by exact Hn. exact Hh.
Qed.

Lemma save_to_history_ok e : preserves history_ok (save_to_history e).
Proof.
  intros ss (h & Hh & Hl). rewrite (save_to_history_run ss h e Hh). simpl.
  exists (saved h e). split; [apply lookup_insert_eq | apply saved_length, Hl].
Qed.

Lemma reset_inputs_ok : preserves history_ok reset_inputs.
Proof.
  unfold reset_inputs.
  repeat (apply preserves_bind;
          [apply set_attr_history_ok; discriminate | intros _]).
  apply preserves_rerun.
Qed.

Lemma process_prediction_ok m w : preserves history_ok (process_prediction m w).
Proof.
  unfold process_prediction, scale.
  apply preserves_bind; [destruct (confidence_map !! confidence w);
                         auto with preserves|intros c].
  cbv zeta. apply preserves_bind; [auto with preserves|intros _].
  apply preserves_bind.
  - apply preserves_try; [|intros e].
    + apply preserves_bind; [auto with preserves|intros _].
      apply preserves_lift.
    + apply preserves_bind; [auto with preserves|intros _].
      apply preserves_stop.
  - intros s. apply predict_and_record_preserves, save_to_history_ok.
Qed.

Lemma app_history_ok m w ss : start_ok ss -> history_ok (state_after m w ss).
Proof.
  intros H. unfold state_after, app.
  rewrite (run_bind_return _ _ _ _ _ _ (init_history_run ss)). cbn [fst snd].
  apply (preserves_bind history_ok).
  - apply sidebar_history_preserves.
  - intros _. apply preserves_bind.
    + apply preserves_when, reset_inputs_ok.
    + intros _. apply preserves_when, process_prediction_ok.
  - apply with_history_ok, H.
Qed.

Lemma session_history_ok m ws ss : start_ok ss -> start_ok (session m ws ss).
Proof.
  revert ss. induction ws as [|w ws IH]; intros ss H; [exact H|].
  simpl. apply IH. right. apply app_history_ok, H.
Qed.

Lemma history_ok_length ss : start_ok ss -> (length (history ss) <= 10)%nat.
Proof.
  unfold history. intros [Hn | (h & Hh & Hl)].
  - rewrite Hn. simpl. lia.
  - rewrite Hh. exact Hl.
Qed.

(** ** Substrings *)

Lemma starts_with_app p s : Py.starts_with p (p +:+ s) = true.
Proof.
  induction p as [|a p IH]; simpl; [destruct s; reflexivity|].
  rewrite Ascii.eqb_refl. exact IH.
Qed.

Lemma contains_unfold p s :
  Py.contains p s =
  Py.starts_with p s ||
  match s with
  | EmptyString => false
  | String _ s' => Py.contains p s'
  end.
Proof. destruct s; reflexivity. Qed.

Lemma contains_prefix p s : Py.contains p (p +:+ s) = true.
Proof. rewrite contains_unfold, starts_with_app. reflexivity. Qed.

Lemma contains_app a p s : Py.contains p (a +:+ p +:+ s) = true.
Proof.
  induction a as [|x a IH]; [exact (contains_prefix p s)|].
  rewrite contains_unfold. simpl. rewrite IH. apply orb_true_r.
Qed.

Lemma contains_suffix a p : Py.contains p (a +:+ p) = true.
Proof.
  pose proof (contains_app a p "") as H.
  replace (p +:+ "") with p in H; [exact H|].
  clear. induction p as [|x p IH]; [reflexivity|].
  change (String x p +:+ "") with (String x (p +:+ "")).
  rewrite <- IH. reflexivity.
Qed.

(** ** A submission that predicts *)

Lemma history_insert ss h : history (<["history" := VList h]> ss) = h.
Proof. unfold history. rewrite lookup_insert_eq. reflexivity. Qed.

Lemma saved_last h e : last (saved h e) = Some e.
Proof.
  unfold saved. destruct (10 <? length (h ++ [e]))%nat eqn:E.
  - destruct h as [|x h]; [discriminate|]. simpl. rewrite drop_0.
    destruct h as [|y h]; [discriminate|]. apply last_snoc.
  - apply last_snoc.
Qed.

Lemma app_predicted m w ss c s p mp t :
  list_history ss ->
  submitted w = true -> reset w = false ->
  confidence_map !! confidence w = Some c ->
  transform m (input_array w c) = Ok s ->
  predict m s = Ok p ->
  get_max_proba m s (with_history ss) = (Return mp, with_history ss, t) ->
  progress_passes m mp ->
  app m w ss =
  (Return tt,
   <["history" :=
       VList (saved (history ss)
                (Entry.mk (fire_type p) (saved_confidence mp)))]>
     (with_history ss),
   sidebar_calls (history ss) ++ warning_calls w ++
   [scaler_transform (input_array w c);
    model_predict s; st_write (RawPrediction p)] ++ t ++
   [st_markdown (PredictionBox (fire_type p))] ++ confidence_calls mp).
Proof.
  intros Hl Hs Hr Hc Ht Hp Hmp Hpass.
  rewrite (app_submitted m w ss c Hl Hs Hr Hc).
  unfold inference. rewrite run_bind, scale_run, Ht.
  rewrite (predict_and_record_ok m s _ _ p mp t Hp Hmp Hpass
             (with_history_lookup ss Hl)).
  reflexivity.
Qed.

(** ** Runs without a warning *)

Lemma downstream_not_warning c : downstream c -> not_warning c.
Proof. destruct c; simpl; auto. Qed.

Lemma quest_lines_not_warning idx h : emits not_warning (quest_lines idx h).
Proof.
  revert idx. induction h as [|entry rest IH]; intros idx; simpl.
  - apply emits_ret.
  - apply emits_bind; [apply emits_emit; exact I | intros _; apply IH].
Qed.

Lemma app_not_warning m w :
  warnings w = [] -> emits not_warning (app m w).
Proof.
  intros Hw. unfold app.
  apply emits_bind; [unfold init_history; repeat emits_step | intros _].
  apply emits_bind; [| intros _].
  { unfold sidebar_history.
    repeat first [apply quest_lines_not_warning | emits_step]. }
  apply emits_bind; [| intros _].
  { apply emits_when. unfold reset_inputs. repeat emits_step. }
  apply emits_when. unfold process_prediction. rewrite Hw.
  apply emits_bind; [repeat emits_step | intros c]. cbv zeta.
  apply emits_bind; [apply emits_ret | intros _].
  apply emits_bind; [unfold scale; repeat emits_step | intros s].
  apply (emits_weaken downstream); [exact downstream_not_warning|].
  apply predict_and_record_downstream.
Qed.

Lemma warnings_shown_not_warning t :
  Forall not_warning t -> warnings_shown t = [].
Proof.
  induction 1 as [|c t Hc _ IH]; [reflexivity|].
  rewrite warnings_shown_cons, IH.
  destruct c; simpl in Hc; try reflexivity; contradiction.
Qed.

Lemma start_ok_list_history ss : start_ok ss -> list_history ss.
Proof.
  intros [Hn | (h & Hh & _)]; [left; exact Hn | right; exists h; exact Hh].
Qed.

(** Every state a session reaches from the empty one has a list, or
    nothing yet, as its history. *)
Lemma session_list_history m ws : list_history (session m ws ∅).
Proof.
  apply start_ok_list_history, session_history_ok. left. apply lookup_empty.
Qed.

(** Three submissions leave three entries, eleven leave ten. *)
Example three_submissions :
  length (history (session plain_model (replicate 3 scenario) ∅)) = 3%nat.
Proof. vm_compute. reflexivity. Qed.

Example eleven_submissions :
  length (history (session plain_model (replicate 11 scenario) ∅)) = 10%nat.
Proof. vm_compute. reflexivity. Qed.

Lemma list_history_empty : list_history ∅.
Proof. left. apply lookup_empty. Qed.

Lemma list_history_full : list_history full_session.
Proof. right. exists ten_entries. reflexivity. Qed.

(** * The claims *)

(** ** C1 *)

(** C1. On a submission whose confidence level is low, nominal or high, the
    scaler is called exactly once, with the row [brightness, bright_t31,
    frp, scan, track, confidence code] in that order; for the input
    brightness 320, bright_t31 300, frp 20, scan 1, track 1, "nominal" the
    row is [320, 300, 20, 1, 1, 1] and no warning is produced. *)
Theorem feature_vector_order :
  (forall m w ss,
     list_history ss ->
     submitted w = true -> reset w = false ->
     confidence w ∈ ["low"; "nominal"; "high"] ->
     exists code,
       confidence_map !! confidence w = Some code /\
       scaler_inputs (trace m w ss) =
       [[brightness w; bright_t31 w; frp w; scan w; track w;
         float_of_int code]]) /\
  (forall m ss,
     list_history ss ->
     scaler_inputs (trace m scenario ss) =
     [[320; 300; 20; 1; 1; 1]%float] /\
     warnings scenario = [] /\
     warnings_shown (trace m scenario ss) = []).
Proof.
  split.
  - intros m w ss Hl Hs Hr Hc.
    assert (exists code, confidence_map !! confidence w = Some code)
      as [code Hcode].
    { rewrite !elem_of_cons, elem_of_nil in Hc.
      destruct Hc as [-> | [-> | [-> | []]]]; eexists; reflexivity. }
    exists code. split; [exact Hcode|].
    exact (submitted_scaler_inputs m w ss code Hl Hs Hr Hcode).
  - intros m ss Hl. split; [|split].
    + exact (submitted_scaler_inputs m scenario ss 1 Hl
               eq_refl eq_refl eq_refl).
    + reflexivity.
    + exact (submitted_warnings_shown m scenario ss 1 Hl
               eq_refl eq_refl eq_refl).
Qed.

Lemma feature_vector_order_witness :
  exists code,
    confidence_map !! confidence hot_scenario = Some code /\
    scaler_inputs (trace plain_model hot_scenario ∅) =
    [[brightness hot_scenario; bright_t31 hot_scenario; frp hot_scenario;
      scan hot_scenario; track hot_scenario; float_of_int code]].
Proof.
  apply (proj1 feature_vector_order plain_model hot_scenario ∅);
    [exact list_history_empty | reflexivity | reflexivity |].
  apply list_elem_of_In. simpl. auto.
Defined.

(** ** C2 *)

(** The labels are the source's strings, which carry their emoji: code 0
    does not map to the bare name. *)
Lemma fire_type_0_not_bare_name : fire_type 0 <> "Vegetation Fire".
Proof. vm_compute. discriminate. Qed.

(** C2 (amended). The label is a total function of the prediction code:
    0 gives "Vegetation Fire 🌿🔥", 2 gives "Static Land Source 🏭🔥", 3 gives
    "Offshore Fire 🌊🔥", and every other integer (1, 4 and -1 among them)
    gives "Unknown Fire Type ❓". *)
Theorem fire_type_total :
  fire_type 0 = "Vegetation Fire 🌿🔥" /\
  fire_type 2 = "Static Land Source 🏭🔥" /\
  fire_type 3 = "Offshore Fire 🌊🔥" /\
  fire_type 1 = "Unknown Fire Type ❓" /\
  fire_type 4 = "Unknown Fire Type ❓" /\
  fire_type (-1) = "Unknown Fire Type ❓" /\
  forall prediction,
    prediction <> 0 -> prediction <> 2 -> prediction <> 3 ->
    fire_type prediction = "Unknown Fire Type ❓".
Proof.
  repeat (split; [reflexivity|]).
  intros p H0 H2 H3. unfold fire_type, fire_types. simpl list_to_map.
  rewrite !lookup_insert_ne by congruence. rewrite lookup_empty. reflexivity.
Qed.

Lemma fire_type_total_witness : fire_type 7 = "Unknown Fire Type ❓".
Proof.
  apply (proj2 (proj2 (proj2 (proj2 (proj2 (proj2 fire_type_total))))) 7);
    lia.
Defined.

(** ** C3 *)

(** C3. Whatever requests a session makes, its history holds at most 10
    entries at the end of each run; and on a history of exactly 10 entries,
    lines 197-199 drop the entry at index 0, keep the other nine in their
    order, and put the new entry last. *)
Theorem history_bounded_fifo :
  (forall m ws, (length (history (session m ws ∅)) <= 10)%nat) /\
  (forall ss h e,
     ss !! "history" = Some (VList h) -> length h = 10%nat ->
     save_to_history e ss =
       (Return tt, <["history" := VList (drop 1 h ++ [e])]> ss, []) /\
     length (drop 1 h ++ [e]) = 10%nat /\
     last (drop 1 h ++ [e]) = Some e /\
     forall i, (i < 9)%nat -> (drop 1 h ++ [e]) !! i = h !! S i).
Proof.
  split.
  - intros m ws. apply history_ok_length, session_history_ok.
    left. apply lookup_empty.
  - intros ss h e Hh Hl.
    rewrite (save_to_history_run ss h e Hh), (saved_full h e Hl).
    split; [reflexivity|]. split; [|split].
    + rewrite length_app, length_drop, Hl. reflexivity.
    + apply last_snoc.
    + intros i Hi. rewrite lookup_app_l by (rewrite length_drop; lia).
      rewrite lookup_drop. reflexivity.
Qed.

Lemma history_bounded_fifo_witness :
  save_to_history (entry_n 10) full_session =
    (Return tt,
     <["history" := VList (drop 1 ten_entries ++ [entry_n 10])]> full_session,
     []) /\
  length (drop 1 ten_entries ++ [entry_n 10]) = 10%nat /\
  last (drop 1 ten_entries ++ [entry_n 10]) = Some (entry_n 10) /\
  forall i, (i < 9)%nat ->
    (drop 1 ten_entries ++ [entry_n 10]) !! i = ten_entries !! S i.
Proof.
  apply (proj2 history_bounded_fifo full_session ten_entries (entry_n 10));
    reflexivity.
Defined.
(** ** C4 *)

(** C4. [confidence_map] sends low to 0, nominal to 1 and high to 2; it has
    no other key and no other value; two keys with the same code are equal;
    and there is an inverse from codes to levels whose composition with the
    map is the identity on the three levels and on the three codes. *)
Theorem confidence_map_bijection :
  confidence_map !! "low" = Some 0 /\
  confidence_map !! "nominal" = Some 1 /\
  confidence_map !! "high" = Some 2 /\
  (forall k c, confidence_map !! k = Some c ->
     k ∈ ["low"; "nominal"; "high"] /\ c ∈ [0; 1; 2]) /\
  (forall k1 k2 c,
     confidence_map !! k1 = Some c -> confidence_map !! k2 = Some c ->
     k1 = k2) /\
  exists level_of : Z -> string,
    (forall k c, confidence_map !! k = Some c -> level_of c = k) /\
    (forall c, c ∈ [0; 1; 2] -> confidence_map !! level_of c = Some c).
Proof.
  assert (Hdom : forall k c, confidence_map !! k = Some c ->
            (k = "low" /\ c = 0) \/ (k = "nominal" /\ c = 1) \/
            (k = "high" /\ c = 2)).
  { intros k c H. unfold confidence_map in H. simpl list_to_map in H.
    rewrite !lookup_insert_Some, lookup_empty in H.
    destruct H as [[<- <-] | [_ [[<- <-] | [_ [[<- <-] | [_ H]]]]]];
      [auto | auto | auto | discriminate]. }
  repeat (split; [reflexivity|]).
  split; [|split].
  - intros k c H.
    destruct (Hdom k c H) as [[-> ->] | [[-> ->] | [-> ->]]];
      split; set_solver.
  - intros k1 k2 c H1 H2.
    destruct (Hdom k1 c H1) as [[-> ->] | [[-> ->] | [-> ->]]];
      destruct (Hdom k2 _ H2) as [[-> ?] | [[-> ?] | [-> ?]]];
      congruence.
  - exists (fun c => if decide (c = 0) then "low"
                     else if decide (c = 1) then "nominal" else "high").
    split.
    + intros k c H.
      destruct (Hdom k c H) as [[-> ->] | [[-> ->] | [-> ->]]]; reflexivity.
    + intros c Hc. rewrite !elem_of_cons, elem_of_nil in Hc.
      destruct Hc as [-> | [-> | [-> | []]]]; reflexivity.
Qed.

Lemma confidence_map_bijection_witness :
  "nominal" ∈ ["low"; "nominal"; "high"] /\ 1 ∈ [0; 1; 2].
Proof.
  apply (proj1 (proj2 (proj2 (proj2 confidence_map_bijection))) "nominal" 1).
  reflexivity.
Defined.

(** ** C5 *)

(** C5. When 300 <= brightness <= 450, 290 <= bright_t31 <= 400 and
    0 <= frp <= 100, the list of warnings is empty and no run shows a
    warning, whatever scan, track, confidence, the buttons, the model and
    the session state are. *)
Theorem in_range_no_warnings (w : widgets) :
  Py.le 300 (brightness w) = true -> Py.le (brightness w) 450 = true ->
  Py.le 290 (bright_t31 w) = true -> Py.le (bright_t31 w) 400 = true ->
  Py.le 0 (frp w) = true -> Py.le (frp w) 100 = true ->
  warnings w = [] /\
  forall m ss, warnings_shown (trace m w ss) = [].
Proof.
  intros B1 B2 T1 T2 F1 F2.
  assert (Hw : warnings w = []).
  { unfold warnings.
    rewrite (le_not_lt _ _ B1), (le_not_gt _ _ B2),
            (le_not_lt _ _ T1), (le_not_gt _ _ T2),
            (le_not_lt _ _ F1), (le_not_gt _ _ F2).
    reflexivity. }
  split; [exact Hw|]. intros m ss.
  apply warnings_shown_not_warning, (app_not_warning m w Hw ss).
Qed.

Lemma in_range_no_warnings_witness :
  warnings scenario = [] /\
  warnings_shown (trace plain_model scenario full_session) = [].
Proof.
  destruct (in_range_no_warnings scenario
              eq_refl eq_refl eq_refl eq_refl eq_refl eq_refl) as [H1 H2].
  split; [exact H1 | apply H2].
Defined.

(** ** C6 *)

Lemma try_except_head {A} (body : script A) catches handler ss c0 :
  (exists rest, (body ss).2 = c0 :: rest) ->
  exists rest, (try_except body catches handler ss).2 = c0 :: rest.
Proof.
  unfold try_except. destruct (body ss) as [[o s1] t1].
  intros [rest Hrest]. cbn [fst snd] in Hrest. subst t1.
  destruct o as [a|e| |]; try (eexists; reflexivity).
  destruct (catches e); [|eexists; reflexivity].
  destruct (handler e s1) as [[o2 s2] t2]. eexists. reflexivity.
Qed.

(** Whatever happens next, lines 172-173 start by calling
    [model.predict] on the scaled row. *)
Lemma predict_and_record_head m s ss :
  exists rest, (predict_and_record m s ss).2 = model_predict s :: rest.
Proof.
  unfold predict_and_record. apply try_except_head.
  rewrite run_bind_emit. eexists. reflexivity.
Qed.

(** C6. With brightness 500, bright_t31 in [290, 400] and frp in [0, 100],
    the list of warnings is the single brightness warning; and on a
    submission the run shows it and then goes on with the scaling and the
    prediction exactly as lines 164-252 would from the same state: the
    scaler is called with the assembled row, [model.predict] is called
    with the scaled row, and when the prediction succeeds the label is
    shown and the entry saved as without a warning. *)
Theorem brightness_500_one_warning (w : widgets) :
  brightness w = 500%float ->
  Py.le 290 (bright_t31 w) = true -> Py.le (bright_t31 w) 400 = true ->
  Py.le 0 (frp w) = true -> Py.le (frp w) 100 = true ->
  warnings w = ["⚠️ Brightness outside 300–450 K!"] /\
  length (warnings w) = 1%nat /\
  Forall (fun body => Py.contains "Brightness" body = true) (warnings w) /\
  forall m ss c,
    list_history ss ->
    submitted w = true -> reset w = false ->
    confidence_map !! confidence w = Some c ->
    app m w ss =
      ((inference m w c (with_history ss)).1.1,
       (inference m w c (with_history ss)).1.2,
       sidebar_calls (history ss) ++
       st_warning "⚠️ Brightness outside 300–450 K!"
         :: (inference m w c (with_history ss)).2) /\
    warnings_shown (trace m w ss) = ["⚠️ Brightness outside 300–450 K!"] /\
    scaler_inputs (trace m w ss) = [input_array w c] /\
    forall s,
      transform m (input_array w c) = Ok s ->
      (exists rest,
         trace m w ss =
           sidebar_calls (history ss) ++
           [st_warning "⚠️ Brightness outside 300–450 K!";
            scaler_transform (input_array w c); model_predict s] ++ rest) /\
      (forall p msg,
         predict m s = Ok p ->
         predict_proba m s = Err (AttributeError msg) ->
         ending m w ss = Return tt /\
         trace m w ss =
           sidebar_calls (history ss) ++
           [st_warning "⚠️ Brightness outside 300–450 K!";
            scaler_transform (input_array w c);
            model_predict s; st_write (RawPrediction p);
            model_predict_proba s; st_write NoPredictProba;
            st_markdown (PredictionBox (fire_type p))] /\
         history (state_after m w ss) =
           saved (history ss) (Entry.mk (fire_type p) 1)) /\
      (forall p probs q,
         predict m s = Ok p ->
         predict_proba m s = Ok probs -> Py.max probs = Some q ->
         progress_passes m (Some q) ->
         ending m w ss = Return tt /\
         trace m w ss =
           sidebar_calls (history ss) ++
           [st_warning "⚠️ Brightness outside 300–450 K!";
            scaler_transform (input_array w c);
            model_predict s; st_write (RawPrediction p);
            model_predict_proba s; st_write (Probabilities probs);
            st_markdown (PredictionBox (fire_type p))] ++
           confidence_calls (Some q) /\
         history (state_after m w ss) =
           saved (history ss)
             (Entry.mk (fire_type p) (saved_confidence (Some q)))).
Proof.
  intros B T1 T2 F1 F2.
  assert (Hw : warnings w = ["⚠️ Brightness outside 300–450 K!"]).
  { unfold warnings. rewrite B.
    rewrite (le_not_lt _ _ T1), (le_not_gt _ _ T2),
            (le_not_lt _ _ F1), (le_not_gt _ _ F2).
    reflexivity. }
  assert (Hwc : warning_calls w =
                [st_warning "⚠️ Brightness outside 300–450 K!"]).
  { unfold warning_calls. rewrite Hw. reflexivity. }
  rewrite Hw. split; [reflexivity|]. split; [reflexivity|].
  split; [repeat constructor|].
  intros m ss c Hl Hs Hr Hc. split; [|split; [|split]].
  - rewrite (app_submitted m w ss c Hl Hs Hr Hc), Hwc. reflexivity.
  - rewrite (submitted_warnings_shown m w ss c Hl Hs Hr Hc), Hw. reflexivity.
  - exact (submitted_scaler_inputs m w ss c Hl Hs Hr Hc).
  - intros s Ht. split; [|split].
    + unfold trace. rewrite (app_submitted m w ss c Hl Hs Hr Hc), Hwc.
      cbn [fst snd]. unfold inference. rewrite run_bind, scale_run, Ht.
      destruct (predict_and_record_head m s (with_history ss))
        as [rest Hrest].
      destruct (predict_and_record m s (with_history ss)) as [[o s2] t2].
      cbn [fst snd] in *. subst t2. eexists. reflexivity.
    + intros p msg Hp Hpp.
      assert (Hmp : get_max_proba m s (with_history ss) =
                (Return None, with_history ss,
                 [model_predict_proba s; st_write NoPredictProba])).
      { rewrite get_max_proba_run, Hpp. reflexivity. }
      pose proof (app_predicted m w ss c s p None _ Hl Hs Hr Hc Ht Hp Hmp I)
        as Happ.
      unfold ending, trace, state_after. rewrite Happ, Hwc. cbn [fst snd].
      rewrite history_insert. repeat split.
    + intros p probs q Hp Hpp Hq Hpass.
      assert (Hmp : get_max_proba m s (with_history ss) =
                (Return (Some q), with_history ss,
                 [model_predict_proba s; st_write (Probabilities probs)])).
      { rewrite get_max_proba_run, Hpp, Hq. reflexivity. }
      pose proof (app_predicted m w ss c s p (Some q) _ Hl Hs Hr Hc Ht Hp Hmp
                    Hpass) as Happ.
      unfold ending, trace, state_after. rewrite Happ, Hwc. cbn [fst snd].
      rewrite history_insert. repeat split.
Qed.

Lemma brightness_500_one_warning_witness :
  warnings hot_scenario = ["⚠️ Brightness outside 300–450 K!"] /\
  warnings_shown (trace plain_model hot_scenario ∅) =
    ["⚠️ Brightness outside 300–450 K!"] /\
  scaler_inputs (trace plain_model hot_scenario ∅) =
    [[500; 300; 20; 1; 1; 2]%float] /\
  trace plain_model hot_scenario ∅ =
    [st_warning "⚠️ Brightness outside 300–450 K!";
     scaler_transform [500; 300; 20; 1; 1; 2]%float;
     model_predict [500; 300; 20; 1; 1; 2]%float;
     st_write (RawPrediction 2);
     model_predict_proba [500; 300; 20; 1; 1; 2]%float;
     st_write (Probabilities [0.25; 0.75]%float);
     st_markdown (PredictionBox "Static Land Source 🏭🔥");
     st_markdown (ConfidenceLine 0.75); st_progress 0.75] /\
  history (state_after plain_model hot_scenario ∅) =
    [Entry.mk "Static Land Source 🏭🔥" 0.75].
Proof.
  destruct (brightness_500_one_warning hot_scenario
              eq_refl eq_refl eq_refl eq_refl eq_refl) as (H1 & _ & _ & H4).
  destruct (H4 plain_model ∅ 2 list_history_empty eq_refl eq_refl eq_refl)
    as (_ & H5 & H6 & H7).
  destruct (H7 [500; 300; 20; 1; 1; 2]%float eq_refl) as (_ & _ & H8).
  destruct (H8 2 [0.25; 0.75]%float 0.75%float eq_refl eq_refl eq_refl
              (fun _ => eq_refl)) as (_ & H9 & H10).
  split; [exact H1|]. split; [exact H5|]. split; [exact H6|].
  split; [exact H9 | exact H10].
Defined.

(** ** C7 *)

(** C7. When [scaler.transform] raises [e] on the assembled row, the run
    reports "🚨 Error scaling input data: " followed by [str(e)] through
    [st.error] and stops before any prediction; the text of [e] occurs in
    that message; the history and every other attribute of the session
    state are as the run found them; and any next run behaves as it would
    have without the failed one. *)
Theorem scaling_error_keeps_history (m : artifacts) (w : widgets)
    (ss : session_state) (c : Z) (e : exn) :
  list_history ss ->
  submitted w = true -> reset w = false ->
  confidence_map !! confidence w = Some c ->
  transform m (input_array w c) = Err e ->
  ending m w ss = Stop /\
  trace m w ss =
    sidebar_calls (history ss) ++ warning_calls w ++
    [scaler_transform (input_array w c);
     st_error ("🚨 Error scaling input data: " +:+ str e)] /\
  Py.contains (str e) ("🚨 Error scaling input data: " +:+ str e) = true /\
  history (state_after m w ss) = history ss /\
  (forall k, k <> "history" -> state_after m w ss !! k = ss !! k) /\
  (forall v, ss !! "history" = Some v -> state_after m w ss = ss) /\
  forall m' w', app m' w' (state_after m w ss) = app m' w' ss.
Proof.
  intros Hl Hs Hr Hc He.
  assert (Happ : app m w ss =
            (Stop, with_history ss,
             sidebar_calls (history ss) ++ warning_calls w ++
             [scaler_transform (input_array w c);
              st_error ("🚨 Error scaling input data: " +:+ str e)])).
  { rewrite (app_submitted m w ss c Hl Hs Hr Hc).
    unfold inference. rewrite run_bind, scale_run, He. reflexivity. }
  unfold ending, trace, state_after. rewrite Happ. cbn [fst snd].
  split; [reflexivity|]. split; [reflexivity|].
  split; [apply contains_suffix|].
  split; [apply history_with_history|].
  split; [intros k Hk; apply with_history_other, Hk|].
  split.
  - intros v Hv. unfold with_history. rewrite Hv.
    rewrite bool_decide_eq_true_2; [reflexivity | eexists; reflexivity].
  - intros m' w'. unfold app.
    rewrite !(run_bind_return _ _ _ _ _ _ (init_history_run _)).
    rewrite with_history_idem. reflexivity.
Qed.

Lemma scaling_error_keeps_history_witness :
  ending broken_scaler scenario full_session = Stop /\
  trace broken_scaler scenario full_session =
    sidebar_calls ten_entries ++
    [scaler_transform [320; 300; 20; 1; 1; 1]%float;
     st_error ("🚨 Error scaling input data: " +:+
               "X has 6 features, but 5 are expected")] /\
  history (state_after broken_scaler scenario full_session) = ten_entries.
Proof.
  destruct (scaling_error_keeps_history broken_scaler scenario full_session 1
              (ValueError "X has 6 features, but 5 are expected")
              list_history_full eq_refl eq_refl eq_refl eq_refl)
    as (H1 & H2 & _ & H4 & _).
  split; [exact H1|]. split; [exact H2|]. exact H4.
Defined.

(** ** C8 *)

(** C8. When [predict_proba] raises [AttributeError], a submission whose
    scaling and prediction succeed still ends normally: it shows the
    predicted label, shows no confidence line and no progress bar, and
    appends to the history an entry with that label and confidence 1.0. *)
Theorem no_predict_proba_saves_one (m : artifacts) (w : widgets)
    (ss : session_state) (c : Z) (s : list float) (p : Z) (msg : string) :
  list_history ss ->
  submitted w = true -> reset w = false ->
  confidence_map !! confidence w = Some c ->
  transform m (input_array w c) = Ok s ->
  predict m s = Ok p ->
  predict_proba m s = Err (AttributeError msg) ->
  ending m w ss = Return tt /\
  trace m w ss =
    sidebar_calls (history ss) ++ warning_calls w ++
    [scaler_transform (input_array w c);
     model_predict s; st_write (RawPrediction p);
     model_predict_proba s; st_write NoPredictProba;
     st_markdown (PredictionBox (fire_type p))] /\
  history (state_after m w ss) =
    saved (history ss) (Entry.mk (fire_type p) 1) /\
  last (history (state_after m w ss)) = Some (Entry.mk (fire_type p) 1).
Proof.
  intros Hl Hs Hr Hc Ht Hp Hpp.
  assert (Hmp : get_max_proba m s (with_history ss) =
            (Return None, with_history ss,
             [model_predict_proba s; st_write NoPredictProba])).
  { rewrite get_max_proba_run, Hpp. reflexivity. }
  pose proof (app_predicted m w ss c s p None _ Hl Hs Hr Hc Ht Hp Hmp I)
    as Happ.
  unfold ending, trace, state_after. rewrite Happ. cbn [fst snd].
  rewrite history_insert.
  split; [reflexivity|]. split; [reflexivity|].
  split; [reflexivity|]. apply saved_last.
Qed.

Lemma no_predict_proba_saves_one_witness :
  ending no_proba_model scenario ∅ = Return tt /\
  trace no_proba_model scenario ∅ =
    [scaler_transform [320; 300; 20; 1; 1; 1]%float;
     model_predict [320; 300; 20; 1; 1; 1]%float;
     st_write (RawPrediction 0);
     model_predict_proba [320; 300; 20; 1; 1; 1]%float;
     st_write NoPredictProba;
     st_markdown (PredictionBox "Vegetation Fire 🌿🔥")] /\
  history (state_after no_proba_model scenario ∅) =
    [Entry.mk "Vegetation Fire 🌿🔥" 1].
Proof.
  destruct (no_predict_proba_saves_one no_proba_model scenario ∅ 1
              [320; 300; 20; 1; 1; 1]%float 0 "predict_proba"
              list_history_empty eq_refl eq_refl eq_refl eq_refl eq_refl
              eq_refl)
    as (H1 & H2 & H3 & _).
  split; [exact H1|]. split; [exact H2|]. exact H3.
Defined.

(** ** C9 *)

(** C9. When [predict_proba] works and the largest probability is 0.0, a
    submission whose scaling and prediction succeed shows no confidence
    line and no progress bar, and the entry it appends to the history has
    confidence 1.0, not 0.0. *)
Theorem zero_proba_saved_as_one (m : artifacts) (w : widgets)
    (ss : session_state) (c : Z) (s probs : list float) (p : Z) (q : float) :
  list_history ss ->
  submitted w = true -> reset w = false ->
  confidence_map !! confidence w = Some c ->
  transform m (input_array w c) = Ok s ->
  predict m s = Ok p ->
  predict_proba m s = Ok probs ->
  Py.max probs = Some q -> PrimFloat.eqb q 0 = true ->
  ending m w ss = Return tt /\
  trace m w ss =
    sidebar_calls (history ss) ++ warning_calls w ++
    [scaler_transform (input_array w c);
     model_predict s; st_write (RawPrediction p);
     model_predict_proba s; st_write (Probabilities probs);
     st_markdown (PredictionBox (fire_type p))] /\
  history (state_after m w ss) =
    saved (history ss) (Entry.mk (fire_type p) 1) /\
  last (history (state_after m w ss)) = Some (Entry.mk (fire_type p) 1).
Proof.
  intros Hl Hs Hr Hc Ht Hp Hpp Hq Hz.
  assert (Hmp : get_max_proba m s (with_history ss) =
            (Return (Some q), with_history ss,
             [model_predict_proba s; st_write (Probabilities probs)])).
  { rewrite get_max_proba_run, Hpp, Hq. reflexivity. }
  assert (Hpass : progress_passes m (Some q)).
  { unfold progress_passes, Py.truthy. rewrite Hz. discriminate. }
  pose proof (app_predicted m w ss c s p (Some q) _ Hl Hs Hr Hc Ht Hp Hmp
                Hpass) as Happ.
  assert (Hsc : saved_confidence (Some q) = 1%float).
  { unfold saved_confidence, Py.truthy. rewrite Hz. reflexivity. }
  assert (Hcc : confidence_calls (Some q) = []).
  { unfold confidence_calls, Py.truthy. rewrite Hz. reflexivity. }
  rewrite Hsc, Hcc in Happ.
  unfold ending, trace, state_after. rewrite Happ. cbn [fst snd].
  rewrite history_insert.
  split; [reflexivity|]. split; [reflexivity|].
  split; [reflexivity|]. apply saved_last.
Qed.

Lemma zero_proba_saved_as_one_witness :
  ending zero_proba_model scenario ∅ = Return tt /\
  trace zero_proba_model scenario ∅ =
    [scaler_transform [320; 300; 20; 1; 1; 1]%float;
     model_predict [320; 300; 20; 1; 1; 1]%float;
     st_write (RawPrediction 3);
     model_predict_proba [320; 300; 20; 1; 1; 1]%float;
     st_write (Probabilities [0; 0]%float);
     st_markdown (PredictionBox "Offshore Fire 🌊🔥")] /\
  history (state_after zero_proba_model scenario ∅) =
    [Entry.mk "Offshore Fire 🌊🔥" 1].
Proof.
  destruct (zero_proba_saved_as_one zero_proba_model scenario ∅ 1
              [320; 300; 20; 1; 1; 1]%float [0; 0]%float 3 0%float
              list_history_empty eq_refl eq_refl eq_refl eq_refl eq_refl
              eq_refl eq_refl eq_refl)
    as (H1 & H2 & H3 & _).
  split; [exact H1|]. split; [exact H2|]. exact H3.
Defined.

(** ** C10 *)

Lemma reset_state_other ss k :
  k ∉ widget_defaults.*1 -> reset_state ss !! k = ss !! k.
Proof.
  intros Hk. unfold reset_state.
  rewrite !lookup_insert_ne; [reflexivity|..];
    intros <-; apply Hk; simpl; set_solver.
Qed.

Lemma reset_state_defaults ss k v :
  (k, v) ∈ widget_defaults -> reset_state ss !! k = Some v.
Proof.
  unfold widget_defaults. rewrite !elem_of_cons, elem_of_nil.
  intros [H | [H | [H | [H | [H | [H | []]]]]]]; inversion H; subst;
    unfold reset_state; simplify_map_eq; reflexivity.
Qed.

(** C10. A run with the reset button pressed ends in a rerun after lines
    130-135, having made no call but the sidebar's listing; it leaves each
    of brightness, bright_t31, frp, scan, track and confidence at its
    widget's default; lines 129-136 assign no other attribute of the
    session state, and the history list is the one the run found. *)
Theorem reset_only_touches_inputs (m : artifacts) (w : widgets)
    (ss : session_state) :
  list_history ss ->
  reset w = true ->
  ending m w ss = Rerun /\
  trace m w ss = sidebar_calls (history ss) /\
  (forall k v, (k, v) ∈ widget_defaults ->
     state_after m w ss !! k = Some v) /\
  (forall ss0 k, k ∉ widget_defaults.*1 ->
     (reset_inputs ss0).1.2 !! k = ss0 !! k) /\
  (forall k, k ∉ widget_defaults.*1 -> k <> "history" ->
     state_after m w ss !! k = ss !! k) /\
  (forall v, ss !! "history" = Some v ->
     state_after m w ss !! "history" = Some v) /\
  history (state_after m w ss) = history ss.
Proof.
  intros Hl Hr. unfold ending, trace, state_after.
  rewrite (app_reset m w ss Hl Hr). cbn [fst snd].
  assert (Hh : "history" ∉ widget_defaults.*1).
  { simpl. rewrite !not_elem_of_cons.
    repeat split; try discriminate. apply not_elem_of_nil. }
  split; [reflexivity|]. split; [reflexivity|].
  split; [intros k v; apply reset_state_defaults|].
  split; [intros ss0 k Hk; rewrite reset_inputs_run; cbn [fst snd];
          apply reset_state_other, Hk|].
  split; [|split].
  - intros k Hk Hn. rewrite (reset_state_other _ k Hk).
    apply with_history_other, Hn.
  - intros v Hv. rewrite (reset_state_other _ _ Hh).
    unfold with_history. rewrite Hv.
    rewrite bool_decide_eq_true_2; [exact Hv | eexists; reflexivity].
  - unfold history at 1. rewrite (reset_state_other _ _ Hh).
    apply history_with_history.
Qed.

Lemma reset_only_touches_inputs_witness :
  ending plain_model reset_click full_session = Rerun /\
  trace plain_model reset_click full_session = sidebar_calls ten_entries /\
  state_after plain_model reset_click full_session !! "frp"
    = Some (VFloat 15) /\
  history (state_after plain_model reset_click full_session) = ten_entries.
Proof.
  destruct (reset_only_touches_inputs plain_model reset_click full_session
              list_history_full eq_refl) as (H1 & H2 & H3 & _ & _ & _ & H7).
  split; [exact H1|]. split; [exact H2|]. split; [|exact H7].
  apply H3. apply list_elem_of_In. simpl. do 2 right. left. reflexivity.
Defined.

(** * Further properties of the script *)

(** ** The ways a prediction fails *)

Lemma predict_and_record_predict_err m s ss e :
  predict m s = Err e ->
  predict_and_record m s ss =
  (Return tt, ss,
   [model_predict s; st_error ("🚨 Error during prediction: " +:+ str e)]).
Proof.
  intros Hp. unfold predict_and_record, try_except.
  rewrite run_bind_emit, Hp. reflexivity.
Qed.

Lemma predict_and_record_proba_err m s ss p e t :
  predict m s = Ok p ->
  get_max_proba m s ss = (Raise e, ss, t) ->
  predict_and_record m s ss =
  (Return tt, ss,
   [model_predict s; st_write (RawPrediction p)] ++ t ++
   [st_error ("🚨 Error during prediction: " +:+ str e)]).
Proof.
  intros Hp Hmp. unfold predict_and_record, try_except.
  rewrite run_bind_emit, Hp. simpl lift.
  rewrite run_bind_mret, run_bind_emit.
  rewrite run_bind, Hmp. reflexivity.
Qed.

Lemma max_from_elem acc xs : Py.max_from acc xs = acc \/ Py.max_from acc xs ∈ xs.
Proof.
  revert acc. induction xs as [|x xs IH]; intros acc; simpl; [left; reflexivity|].
  destruct (IH (if Py.gt x acc then x else acc)) as [H | H].
  - rewrite H. destruct (Py.gt x acc); [right; left | left; reflexivity].
  - right. right. exact H.
Qed.

Lemma max_elem xs q : Py.max xs = Some q -> q ∈ xs.
Proof.
  destruct xs as [|x xs]; [discriminate|]. simpl. intros [= <-].
  destruct (max_from_elem x xs) as [-> | H]; [left | right; exact H].
Qed.

(** ** X1 *)

(** X1. When [predict_proba] returns float64 probabilities whose largest
    one [q] is not zero and lies between 0.0 and 1.0, a submission whose
    scaling and prediction succeed shows the label, then the confidence [q]
    and a progress bar at [q], and appends to the history an entry with
    that label and confidence [q]; [q] is one of the returned
    probabilities. *)
Theorem shown_confidence_is_saved (m : artifacts) (w : widgets)
    (ss : session_state) (c : Z) (s probs : list float) (p : Z) (q : float) :
  list_history ss ->
  submitted w = true -> reset w = false ->
  confidence_map !! confidence w = Some c ->
  transform m (input_array w c) = Ok s ->
  predict m s = Ok p ->
  predict_proba m s = Ok probs -> proba_dtype m = float64 ->
  Py.max probs = Some q -> Py.truthy q = true ->
  Py.le 0 q = true -> Py.le q 1 = true ->
  q ∈ probs /\
  ending m w ss = Return tt /\
  trace m w ss =
    sidebar_calls (history ss) ++ warning_calls w ++
    [scaler_transform (input_array w c);
     model_predict s; st_write (RawPrediction p);
     model_predict_proba s; st_write (Probabilities probs);
     st_markdown (PredictionBox (fire_type p));
     st_markdown (ConfidenceLine q); st_progress q] /\
  history (state_after m w ss) =
    saved (history ss) (Entry.mk (fire_type p) q) /\
  last (history (state_after m w ss)) = Some (Entry.mk (fire_type p) q).
Proof.
  intros Hl Hs Hr Hc Ht Hp Hpp Hd Hq Hz H0 H1.
  split; [exact (max_elem probs q Hq)|].
  assert (Hmp : get_max_proba m s (with_history ss) =
            (Return (Some q), with_history ss,
             [model_predict_proba s; st_write (Probabilities probs)])).
  { rewrite get_max_proba_run, Hpp, Hq. reflexivity. }
  assert (Hpass : progress_passes m (Some q)).
  { intros _. unfold progress_accepts. rewrite Hd, H0, H1. reflexivity. }
  pose proof (app_predicted m w ss c s p (Some q) _ Hl Hs Hr Hc Ht Hp Hmp
                Hpass) as Happ.
  assert (Hsc : saved_confidence (Some q) = q).
  { unfold saved_confidence. rewrite Hz. reflexivity. }
  assert (Hcc : confidence_calls (Some q) =
                [st_markdown (ConfidenceLine q); st_progress q]).
  { unfold confidence_calls. rewrite Hz. reflexivity. }
  rewrite Hsc, Hcc in Happ.
  unfold ending, trace, state_after. rewrite Happ. cbn [fst snd].
  rewrite history_insert.
  split; [reflexivity|]. split; [reflexivity|].
  split; [reflexivity|]. apply saved_last.
Qed.

Lemma shown_confidence_is_saved_witness :
  ending plain_model scenario ∅ = Return tt /\
  trace plain_model scenario ∅ =
    [scaler_transform [320; 300; 20; 1; 1; 1]%float;
     model_predict [320; 300; 20; 1; 1; 1]%float;
     st_write (RawPrediction 2);
     model_predict_proba [320; 300; 20; 1; 1; 1]%float;
     st_write (Probabilities [0.25; 0.75]%float);
     st_markdown (PredictionBox "Static Land Source 🏭🔥");
     st_markdown (ConfidenceLine 0.75); st_progress 0.75] /\
  history (state_after plain_model scenario ∅) =
    [Entry.mk "Static Land Source 🏭🔥" 0.75].
Proof.
  destruct (shown_confidence_is_saved plain_model scenario ∅ 1
              [320; 300; 20; 1; 1; 1]%float [0.25; 0.75]%float 2 0.75%float
              list_history_empty eq_refl eq_refl eq_refl eq_refl eq_refl
              eq_refl eq_refl eq_refl eq_refl eq_refl eq_refl)
    as (_ & H1 & H2 & H3 & _).
  split; [exact H1|]. split; [exact H2|]. exact H3.
Defined.

(** ** X2 *)

(** X2. When [model.predict] raises [e] after a successful scaling, the run
    reports "🚨 Error during prediction: " followed by [str(e)] and goes on
    to its end (it is not stopped, unlike a scaling error); [predict_proba]
    is not called, no label is shown, and the session state is the one
    lines 71-72 leave: the history gets no entry. *)
Theorem prediction_error_keeps_history (m : artifacts) (w : widgets)
    (ss : session_state) (c : Z) (s : list float) (e : exn) :
  list_history ss ->
  submitted w = true -> reset w = false ->
  confidence_map !! confidence w = Some c ->
  transform m (input_array w c) = Ok s ->
  predict m s = Err e ->
  ending m w ss = Return tt /\
  trace m w ss =
    sidebar_calls (history ss) ++ warning_calls w ++
    [scaler_transform (input_array w c); model_predict s;
     st_error ("🚨 Error during prediction: " +:+ str e)] /\
  Py.contains (str e) ("🚨 Error during prediction: " +:+ str e) = true /\
  state_after m w ss = with_history ss /\
  history (state_after m w ss) = history ss.
Proof.
  intros Hl Hs Hr Hc Ht Hp.
  assert (Happ : app m w ss =
            (Return tt, with_history ss,
             sidebar_calls (history ss) ++ warning_calls w ++
             [scaler_transform (input_array w c); model_predict s;
              st_error ("🚨 Error during prediction: " +:+ str e)])).
  { rewrite (app_submitted m w ss c Hl Hs Hr Hc).
    unfold inference. rewrite run_bind, scale_run, Ht.
    rewrite (predict_and_record_predict_err m s _ e Hp). reflexivity. }
  unfold ending, trace, state_after. rewrite Happ. cbn [fst snd].
  split; [reflexivity|]. split; [reflexivity|].
  split; [apply contains_suffix|].
  split; [reflexivity | apply history_with_history].
Qed.

Lemma prediction_error_keeps_history_witness :
  ending failing_classifier scenario full_session = Return tt /\
  trace failing_classifier scenario full_session =
    sidebar_calls ten_entries ++
    [scaler_transform [320; 300; 20; 1; 1; 1]%float;
     model_predict [320; 300; 20; 1; 1; 1]%float;
     st_error ("🚨 Error during prediction: " +:+ "Input contains NaN")] /\
  history (state_after failing_classifier scenario full_session)
    = ten_entries.
Proof.
  destruct (prediction_error_keeps_history failing_classifier scenario
              full_session 1 [320; 300; 20; 1; 1; 1]%float
              (ValueError "Input contains NaN")
              list_history_full eq_refl eq_refl eq_refl eq_refl eq_refl)
    as (H1 & H2 & _ & _ & H5).
  split; [exact H1|]. split; [exact H2|]. exact H5.
Defined.

(** ** X3 *)

(** X3. When [predict_proba] raises an exception that is not an
    [AttributeError], the prediction already obtained is dropped: the run
    reports the prediction error with [str(e)], shows no label, ends
    normally, and the history gets no entry. *)
Theorem proba_error_drops_prediction (m : artifacts) (w : widgets)
    (ss : session_state) (c : Z) (s : list float) (p : Z) (e : exn) :
  list_history ss ->
  submitted w = true -> reset w = false ->
  confidence_map !! confidence w = Some c ->
  transform m (input_array w c) = Ok s ->
  predict m s = Ok p ->
  predict_proba m s = Err e -> is_AttributeError e = false ->
  ending m w ss = Return tt /\
  trace m w ss =
    sidebar_calls (history ss) ++ warning_calls w ++
    [scaler_transform (input_array w c);
     model_predict s; st_write (RawPrediction p);
     model_predict_proba s;
     st_error ("🚨 Error during prediction: " +:+ str e)] /\
  state_after m w ss = with_history ss /\
  history (state_after m w ss) = history ss.
Proof.
  intros Hl Hs Hr Hc Ht Hp Hpp Ha.
  assert (Hmp : get_max_proba m s (with_history ss) =
            (Raise e, with_history ss, [model_predict_proba s])).
  { rewrite get_max_proba_run, Hpp, Ha. reflexivity. }
  assert (Happ : app m w ss =
            (Return tt, with_history ss,
             sidebar_calls (history ss) ++ warning_calls w ++
             [scaler_transform (input_array w c);
              model_predict s; st_write (RawPrediction p);
              model_predict_proba s;
              st_error ("🚨 Error during prediction: " +:+ str e)])).
  { rewrite (app_submitted m w ss c Hl Hs Hr Hc).
    unfold inference. rewrite run_bind, scale_run, Ht.
    rewrite (predict_and_record_proba_err m s _ p e _ Hp Hmp). reflexivity. }
  unfold ending, trace, state_after. rewrite Happ. cbn [fst snd].
  split; [reflexivity|]. split; [reflexivity|].
  split; [reflexivity | apply history_with_history].
Qed.

Lemma proba_error_drops_prediction_witness :
  ending failing_proba_model scenario ∅ = Return tt /\
  trace failing_proba_model scenario ∅ =
    [scaler_transform [320; 300; 20; 1; 1; 1]%float;
     model_predict [320; 300; 20; 1; 1; 1]%float;
     st_write (RawPrediction 0);
     model_predict_proba [320; 300; 20; 1; 1; 1]%float;
     st_error ("🚨 Error during prediction: " +:+ "Input contains NaN")] /\
  history (state_after failing_proba_model scenario ∅) = [].
Proof.
  destruct (proba_error_drops_prediction failing_proba_model scenario ∅ 1
              [320; 300; 20; 1; 1; 1]%float 0
              (ValueError "Input contains NaN")
              list_history_empty eq_refl eq_refl eq_refl eq_refl eq_refl
              eq_refl eq_refl)
    as (H1 & H2 & _ & H4).
  split; [exact H1|]. split; [exact H2|]. exact H4.
Defined.

(** ** X4 *)

(** X4. When [predict_proba] returns an empty row, [max] raises on it: the
    probabilities are written out, then the run reports a prediction
    error, shows no label, ends normally, and the history gets no entry. *)
Theorem empty_proba_drops_prediction (m : artifacts) (w : widgets)
    (ss : session_state) (c : Z) (s : list float) (p : Z) :
  list_history ss ->
  submitted w = true -> reset w = false ->
  confidence_map !! confidence w = Some c ->
  transform m (input_array w c) = Ok s ->
  predict m s = Ok p ->
  predict_proba m s = Ok [] ->
  ending m w ss = Return tt /\
  (exists msg,
     trace m w ss =
       sidebar_calls (history ss) ++ warning_calls w ++
       [scaler_transform (input_array w c);
        model_predict s; st_write (RawPrediction p);
        model_predict_proba s; st_write (Probabilities []);
        st_error ("🚨 Error during prediction: " +:+ msg)]) /\
  state_after m w ss = with_history ss /\
  history (state_after m w ss) = history ss.
Proof.
  intros Hl Hs Hr Hc Ht Hp Hpp.
  assert (Hmp : get_max_proba m s (with_history ss) =
            (Raise (ValueError "max() arg is an empty sequence"),
             with_history ss,
             [model_predict_proba s; st_write (Probabilities [])])).
  { rewrite get_max_proba_run, Hpp. reflexivity. }
  assert (Happ : app m w ss =
            (Return tt, with_history ss,
             sidebar_calls (history ss) ++ warning_calls w ++
             [scaler_transform (input_array w c);
              model_predict s; st_write (RawPrediction p);
              model_predict_proba s; st_write (Probabilities []);
              st_error ("🚨 Error during prediction: " +:+
                        "max() arg is an empty sequence")])).
  { rewrite (app_submitted m w ss c Hl Hs Hr Hc).
    unfold inference. rewrite run_bind, scale_run, Ht.
    rewrite (predict_and_record_proba_err m s _ p _ _ Hp Hmp). reflexivity. }
  unfold ending, trace, state_after. rewrite Happ. cbn [fst snd].
  split; [reflexivity|]. split; [eexists; reflexivity|].
  split; [reflexivity | apply history_with_history].
Qed.

Lemma empty_proba_drops_prediction_witness :
  ending empty_proba_model scenario ∅ = Return tt /\
  history (state_after empty_proba_model scenario ∅) = [].
Proof.
  destruct (empty_proba_drops_prediction empty_proba_model scenario ∅ 1
              [320; 300; 20; 1; 1; 1]%float 0
              list_history_empty eq_refl eq_refl eq_refl eq_refl eq_refl
              eq_refl)
    as (H1 & _ & _ & H4).
  split; [exact H1 | exact H4].
Defined.

(** ** X6 *)

Lemma labels_shown_app t1 t2 :
  labels_shown (t1 ++ t2) = labels_shown t1 ++ labels_shown t2.
Proof. apply omap_app. Qed.

Lemma labels_shown_not_label t : Forall not_label t -> labels_shown t = [].
Proof.
  induction 1 as [|c t Hc _ IH]; [reflexivity|].
  change (labels_shown (c :: t)) with (labels_shown ([c] ++ t)).
  rewrite labels_shown_app, IH.
  destruct c as [| | |sh| | | |]; try reflexivity.
  destruct sh; try reflexivity. contradiction.
Qed.

Lemma quest_calls_not_label idx h : Forall not_label (quest_calls idx h).
Proof.
  revert idx. induction h as [|entry rest IH]; intros idx; simpl;
    constructor; [exact I | apply IH].
Qed.

Lemma sidebar_calls_labels h : labels_shown (sidebar_calls h) = [].
Proof.
  apply labels_shown_not_label. destruct h as [|entry rest]; [constructor|].
  constructor; [exact I | apply quest_calls_not_label].
Qed.

Lemma warning_calls_labels w : labels_shown (warning_calls w) = [].
Proof. unfold warning_calls. destruct (bool_decide _); reflexivity. Qed.

Lemma history_reset_state ss : history (reset_state ss) = history ss.
Proof.
  unfold history. rewrite reset_state_other; [reflexivity|].
  simpl. rewrite !not_elem_of_cons.
  repeat split; try discriminate. apply not_elem_of_nil.
Qed.

Lemma predict_and_record_refused m s ss p q t :
  predict m s = Ok p ->
  get_max_proba m s ss = (Return (Some q), ss, t) ->
  Py.truthy q = true -> progress_accepts (proba_dtype m) q = false ->
  exists body,
    predict_and_record m s ss =
    (Return tt, ss,
     [model_predict s; st_write (RawPrediction p)] ++ t ++
     [st_markdown (PredictionBox (fire_type p));
      st_markdown (ConfidenceLine q); st_progress q; st_error body]).
Proof.
  intros Hp Hmp Hq Hacc.
  exists ("🚨 Error during prediction: " +:+
          str (OtherError "Progress Value has invalid value or type")).
  unfold predict_and_record, try_except.
  rewrite run_bind_emit, Hp. simpl lift.
  rewrite run_bind_mret, run_bind_emit.
  rewrite (run_bind_return _ _ _ _ _ _ Hmp). cbv zeta.
  rewrite run_bind_emit. rewrite Hq. simpl when.
  rewrite run_bind, run_bind_emit, progress_run, Hacc. cbn [fst snd].
  unfold is_Exception, emit. f_equal.
  change (model_predict s :: st_write (RawPrediction p)
          :: t ++ [st_markdown (PredictionBox (fire_type p));
                   st_markdown (ConfidenceLine q); st_progress q])
    with ([model_predict s; st_write (RawPrediction p)]
          ++ t ++ [st_markdown (PredictionBox (fire_type p));
                   st_markdown (ConfidenceLine q); st_progress q]).
  rewrite <- !app_assoc. reflexivity.
Qed.

(** What a submission does from line 164 on: it shows no label and leaves
    the state; or shows one label, returns and saves one entry; or shows
    one label and returns with the state as it was, [st.progress] having
    refused the confidence. *)
Lemma inference_cases m w c ss h :
  ss !! "history" = Some (VList h) ->
  (labels_shown (inference m w c ss).2 = [] /\
   (inference m w c ss).1.2 = ss) \/
  (exists p mp,
     labels_shown (inference m w c ss).2 = [fire_type p] /\
     (inference m w c ss).1.1 = Return tt /\
     (inference m w c ss).1.2 =
       <["history" :=
           VList (saved h (Entry.mk (fire_type p) (saved_confidence mp)))]>
         ss) \/
  (exists p q body front,
     labels_shown (inference m w c ss).2 = [fire_type p] /\
     (inference m w c ss).1.1 = Return tt /\
     (inference m w c ss).1.2 = ss /\
     progress_accepts (proba_dtype m) q = false /\
     (inference m w c ss).2 = front ++ [st_progress q; st_error body]).
Proof.
  intros Hh. unfold inference. rewrite run_bind, scale_run.
  destruct (transform m (input_array w c)) as [s|e];
    [|left; split; reflexivity].
  destruct (predict m s) as [p|e] eqn:Hp.
  2: { rewrite (predict_and_record_predict_err m s ss e Hp).
       left; split; reflexivity. }
  pose proof (get_max_proba_run m s ss) as Hg.
  destruct (predict_proba m s) as [probs|e].
  - destruct (Py.max probs) as [q|].
    + destruct (Py.truthy q) eqn:Hq;
        [destruct (progress_accepts (proba_dtype m) q) eqn:Hacc|].
      * assert (Hpass : progress_passes m (Some q)) by (intros _; exact Hacc).
        rewrite (predict_and_record_ok m s ss h p _ _ Hp Hg Hpass Hh).
        right. left. exists p, (Some q). cbn [fst snd].
        split; [|split; reflexivity].
        unfold confidence_calls. rewrite Hq. reflexivity.
      * destruct (predict_and_record_refused m s ss p q _ Hp Hg Hq Hacc)
          as [body ->].
        right. right.
        exists p, q, body,
          [scaler_transform (input_array w c);
           model_predict s; st_write (RawPrediction p);
           model_predict_proba s; st_write (Probabilities probs);
           st_markdown (PredictionBox (fire_type p));
           st_markdown (ConfidenceLine q)].
        cbn [fst snd].
        split; [reflexivity|]. split; [reflexivity|]. split; [reflexivity|].
        split; [exact Hacc | reflexivity].
      * assert (Hpass : progress_passes m (Some q)).
        { intros Ht. rewrite Hq in Ht. discriminate. }
        rewrite (predict_and_record_ok m s ss h p _ _ Hp Hg Hpass Hh).
        right. left. exists p, (Some q). cbn [fst snd].
        split; [|split; reflexivity].
        unfold confidence_calls. rewrite Hq. reflexivity.
    + rewrite (predict_and_record_proba_err m s ss p _ _ Hp Hg).
      left; split; reflexivity.
  - destruct (is_AttributeError e).
    + rewrite (predict_and_record_ok m s ss h p _ _ Hp Hg I Hh).
      right. left. exists p, None. cbn [fst snd].
      split; [|split]; reflexivity.
    + rewrite (predict_and_record_proba_err m s ss p _ _ Hp Hg).
      left; split; reflexivity.
Qed.

(** A run keeps the history, or shows one label, returns and saves one
    entry with that label. *)
Lemma run_history_step m w ss :
  list_history ss ->
  history (state_after m w ss) = history ss \/
  (exists p mp,
     labels_shown (trace m w ss) = [fire_type p] /\
     ending m w ss = Return tt /\
     history (state_after m w ss) =
       saved (history ss) (Entry.mk (fire_type p) (saved_confidence mp))).
Proof.
  intros Hl. unfold ending, trace, state_after.
  destruct (reset w) eqn:Hr.
  { rewrite (app_reset m w ss Hl Hr). cbn [fst snd]. left.
    rewrite history_reset_state. apply history_with_history. }
  destruct (submitted w) eqn:Hs.
  2: { rewrite (app_idle m w ss Hl Hr Hs). cbn [fst snd]. left.
       apply history_with_history. }
  destruct (confidence_map !! confidence w) as [c|] eqn:Hc.
  2: { rewrite (app_bad_confidence m w ss Hl Hr Hs Hc). cbn [fst snd]. left.
       apply history_with_history. }
  rewrite (app_submitted m w ss c Hl Hs Hr Hc). cbn [fst snd].
  rewrite !labels_shown_app, sidebar_calls_labels, warning_calls_labels.
  destruct (inference_cases m w c _ _ (with_history_lookup ss Hl))
    as [[H1 H2] | [(p & mp & H1 & H2 & H3)
                  | (p & q & body & front & H1 & H2 & H3 & _)]].
  - left. rewrite H2. apply history_with_history.
  - right. exists p, mp. rewrite H1, H2, H3.
    split; [reflexivity|]. split; [reflexivity | apply history_insert].
  - left. rewrite H3. apply history_with_history.
Qed.



(** ** X7 *)

(** X7. While the history holds fewer than 10 entries, lines 197-199 evict
    nothing: the list becomes the old list followed by the new entry, one
    entry longer. *)
Theorem save_below_cap_appends (ss : session_state) (h : list Entry.t)
    (e : Entry.t) :
  ss !! "history" = Some (VList h) -> (length h < 10)%nat ->
  save_to_history e ss =
    (Return tt, <["history" := VList (h ++ [e])]> ss, []) /\
  length (h ++ [e]) = S (length h) /\
  forall i, (i < length h)%nat -> (h ++ [e]) !! i = h !! i.
Proof.
  intros Hh Hl. rewrite (save_to_history_run ss h e Hh), (saved_room h e Hl).
  split; [reflexivity|]. split.
  - rewrite length_app. simpl. lia.
  - intros i Hi. apply lookup_app_l, Hi.
Qed.

Lemma save_below_cap_appends_witness :
  save_to_history (entry_n 3) {[ "history" := VList (take 3 ten_entries) ]} =
    (Return tt,
     <["history" := VList (take 3 ten_entries ++ [entry_n 3])]>
       {[ "history" := VList (take 3 ten_entries) ]}, []).
Proof.
  apply (save_below_cap_appends
           {[ "history" := VList (take 3 ten_entries) ]}
           (take 3 ten_entries) (entry_n 3)).
  - reflexivity.
  - simpl. lia.
Defined.

(** ** X8 *)

(** X8. Lines 197-199 need the attribute that lines 71-72 create: on a
    state without a history attribute they raise an [AttributeError] and
    change nothing, while after lines 71-72 the same state takes the entry
    as the only one of its history. *)
Theorem first_save_needs_init (ss : session_state) (e : Entry.t) :
  ss !! "history" = None ->
  (exists msg, save_to_history e ss = (Raise (AttributeError msg), ss, [])) /\
  (init_history;; save_to_history e) ss =
    (Return tt, <["history" := VList [e]]> ss, []).
Proof.
  intros Hn. split.
  - exists "history". unfold save_to_history, history_append, get_attr.
    rewrite !run_bind, Hn. reflexivity.
  - rewrite (run_bind_return _ _ _ _ _ _ (init_history_run ss)).
    assert (Hw : with_history ss = <["history" := VList []]> ss).
    { unfold with_history. rewrite Hn.
      rewrite bool_decide_eq_false_2 by (intros [v Hv]; discriminate).
      reflexivity. }
    rewrite Hw.
    rewrite (save_to_history_run _ [] e (lookup_insert_eq _ _ _)).
    cbn [fst snd]. rewrite insert_insert_eq. reflexivity.
Qed.

Lemma first_save_needs_init_witness :
  (init_history;; save_to_history (entry_n 0)) ∅ =
    (Return tt, <["history" := VList [entry_n 0]]> ∅, []).
Proof.
  exact (proj2 (first_save_needs_init ∅ (entry_n 0) (lookup_empty _))).
Defined.

(** ** X9 *)

Lemma quest_calls_imap idx h :
  quest_calls idx h =
  imap (fun i entry =>
          st_markdown (QuestLine (idx + i + 1) (Entry.result entry)
                         (Entry.confidence entry))) h.
Proof.
  revert idx. induction h as [|entry rest IH]; intros idx; [reflexivity|].
  simpl. rewrite IH. f_equal.
  - rewrite Nat.add_0_r. reflexivity.
  - apply imap_ext. intros i x _. simpl.
    replace (S (idx + i + 1))%nat with (idx + S i + 1)%nat by lia.
    reflexivity.
Qed.

(** X9. On a history that is a list, the sidebar changes nothing in the
    session state; it shows nothing at all for an empty history, and
    otherwise the heading followed by one line per entry, in the order of
    the list, the entry at index [i] being numbered [i + 1]. *)
Theorem sidebar_lists_history (ss : session_state) (h : list Entry.t) :
  ss !! "history" = Some (VList h) ->
  (sidebar_history ss).1.1 = Return tt /\
  (sidebar_history ss).1.2 = ss /\
  (h = [] -> (sidebar_history ss).2 = []) /\
  (h <> [] ->
   (sidebar_history ss).2 =
     st_markdown QuestHistoryHeading ::
     imap (fun i entry =>
             st_markdown (QuestLine (i + 1) (Entry.result entry)
                            (Entry.confidence entry))) h).
Proof.
  intros Hh. rewrite (sidebar_history_run ss h Hh). cbn [fst snd].
  split; [reflexivity|]. split; [reflexivity|]. split.
  - intros ->. reflexivity.
  - intros Hne. destruct h as [|entry rest]; [contradiction|].
    unfold sidebar_calls. rewrite quest_calls_imap. reflexivity.
Qed.

Lemma sidebar_lists_history_witness :
  (sidebar_history full_session).1.1 = Return tt /\
  (sidebar_history full_session).1.2 = full_session /\
  length (sidebar_history full_session).2 = 11%nat.
Proof.
  destruct (sidebar_lists_history full_session ten_entries eq_refl)
    as (H1 & H2 & _ & H4).
  split; [exact H1|]. split; [exact H2|].
  rewrite H4 by discriminate. reflexivity.
Defined.

(** ** X10 *)

Section HistoryOnly.

Lemma history_only_const {A} (o : outcome A) (t : list call) :
  history_only (fun ss => (o, ss, t)).
Proof. intros ss1 ss2 H. repeat split. exact H. Qed.

Lemma history_only_ret {A} (a : A) : history_only (mret a).
Proof. apply history_only_const. Qed.

Lemma history_only_raise {A} (e : exn) : history_only (@raise A e).
Proof. apply history_only_const. Qed.

Lemma history_only_emit (c : call) : history_only (emit c).
Proof. apply history_only_const. Qed.

Lemma history_only_stop {A} : history_only (@st_stop A).
Proof. apply history_only_const. Qed.

Lemma history_only_rerun {A} : history_only (@st_experimental_rerun A).
Proof. apply history_only_const. Qed.

Lemma history_only_lift {A} (r : result A) : history_only (lift r).
Proof. destruct r; apply history_only_const. Qed.

Lemma history_only_get : history_only (get_attr "history").
Proof.
  intros ss1 ss2 H. unfold get_attr.
  rewrite (H : ss1 !! "history" = ss2 !! "history").
  destruct (ss2 !! "history"); repeat split; exact H.
Qed.

Lemma history_only_has : history_only (has_attr "history").
Proof.
  intros ss1 ss2 H. unfold has_attr. cbn [fst snd].
  rewrite (H : ss1 !! "history" = ss2 !! "history").
  repeat split. exact H.
Qed.

Lemma history_only_set name v : history_only (set_attr name v).
Proof.
  intros ss1 ss2 H. unfold set_attr, same_history. cbn [fst snd].
  repeat split. destruct (decide (name = "history")) as [-> | Hn].
  - rewrite !lookup_insert_eq. reflexivity.
  - rewrite !lookup_insert_ne by exact Hn. exact H.
Qed.

Lemma history_only_bind {A B} (c : script A) (k : A -> script B) :
  history_only c -> (forall a, history_only (k a)) -> history_only (c ≫= k).
Proof.
  intros Hc Hk ss1 ss2 H. rewrite !run_bind.
  destruct (Hc ss1 ss2 H) as (Ho & Ht & Hs).
  destruct (c ss1) as [[o1 s1] t1], (c ss2) as [[o2 s2] t2].
  cbn [fst snd] in Ho, Ht, Hs. subst o2 t2.
  destruct o1 as [a|e| |]; try (repeat split; exact Hs).
  destruct (Hk a s1 s2 Hs) as (Ho' & Ht' & Hs').
  destruct (k a s1) as [[o1' s1'] t1'], (k a s2) as [[o2' s2'] t2'].
  cbn [fst snd] in *. subst. repeat split. exact Hs'.
Qed.

Lemma history_only_try {A} (body : script A) catches
    (handler : exn -> script A) :
  history_only body -> (forall e, history_only (handler e)) ->
  history_only (try_except body catches handler).
Proof.
  intros Hb Hh ss1 ss2 H. unfold try_except.
  destruct (Hb ss1 ss2 H) as (Ho & Ht & Hs).
  destruct (body ss1) as [[o1 s1] t1], (body ss2) as [[o2 s2] t2].
  cbn [fst snd] in Ho, Ht, Hs. subst o2 t2.
  destruct o1 as [a|e| |]; try (repeat split; exact Hs).
  destruct (catches e); [|repeat split; exact Hs].
  destruct (Hh e s1 s2 Hs) as (Ho' & Ht' & Hs').
  destruct (handler e s1) as [[o1' s1'] t1'], (handler e s2) as [[o2' s2'] t2'].
  cbn [fst snd] in *. subst. repeat split. exact Hs'.
Qed.

Lemma history_only_when (b : bool) (c : script unit) :
  history_only c -> history_only (when b c).
Proof. intros Hc. destruct b; [exact Hc | apply history_only_ret]. Qed.

End HistoryOnly.

Ltac history_only_step :=
  first
    [ apply history_only_get
    | apply history_only_has
    | apply history_only_set
    | apply history_only_emit
    | apply history_only_ret
    | apply history_only_raise
    | apply history_only_stop
    | apply history_only_rerun
    | apply history_only_lift
    | apply history_only_when
    | apply history_only_bind; [|intros ?]
    | apply history_only_try; [|intros ?]
    | match goal with
      | |- history_only (match ?x with _ => _ end) => destruct x
      end ].

Lemma quest_lines_history_only idx h : history_only (quest_lines idx h).
Proof.
  revert idx. induction h as [|entry rest IH]; intros idx; simpl.
  - apply history_only_ret.
  - apply history_only_bind; [apply history_only_emit | intros _; apply IH].
Qed.

Lemma app_history_only m w : history_only (app m w).
Proof.
  unfold app, init_history, sidebar_history, reset_inputs, process_prediction,
    scale, predict_and_record, get_max_proba, save_to_history,
    history_append, history_len, history_pop0.
  repeat first [apply quest_lines_history_only | history_only_step].
Qed.

(** X10. A run reads nothing of the session state but its history
    attribute: from two states with the same history attribute, the same
    model and widget values give the same calls in the same order, the
    same ending, and again states with the same history attribute. *)
Theorem run_reads_only_history (m : artifacts) (w : widgets)
    (ss1 ss2 : session_state) :
  ss1 !! "history" = ss2 !! "history" ->
  ending m w ss1 = ending m w ss2 /\
  trace m w ss1 = trace m w ss2 /\
  state_after m w ss1 !! "history" = state_after m w ss2 !! "history".
Proof. intros H. exact (app_history_only m w ss1 ss2 H). Qed.

Lemma run_reads_only_history_witness :
  ending plain_model scenario (reset_state full_session) =
    ending plain_model scenario full_session /\
  trace plain_model scenario (reset_state full_session) =
    trace plain_model scenario full_session /\
  state_after plain_model scenario (reset_state full_session) !! "history" =
    state_after plain_model scenario full_session !! "history".
Proof.
  apply (run_reads_only_history plain_model scenario
           (reset_state full_session) full_session).
  reflexivity.
Defined.

(** ** X11 *)

Lemma app_with_history m w ss : app m w (with_history ss) = app m w ss.
Proof.
  unfold app.
  rewrite !(run_bind_return _ _ _ _ _ _ (init_history_run _)).
  rewrite with_history_idem. reflexivity.
Qed.

(** X11. Pressing reset has no effect on what a later run does: after a
    reset run, any run makes the calls, ends the way and leaves the history
    it would have without the reset. *)
Theorem reset_does_not_change_next_run (m : artifacts) (wr w : widgets)
    (ss : session_state) :
  list_history ss -> reset wr = true ->
  ending m w (state_after m wr ss) = ending m w ss /\
  trace m w (state_after m wr ss) = trace m w ss /\
  history (state_after m w (state_after m wr ss)) =
    history (state_after m w ss).
Proof.
  intros Hl Hr.
  assert (Hsame : state_after m wr ss !! "history"
                  = with_history ss !! "history").
  { unfold state_after. rewrite (app_reset m wr ss Hl Hr). cbn [fst snd].
    apply reset_state_other. simpl. rewrite !not_elem_of_cons.
    repeat split; try discriminate. apply not_elem_of_nil. }
  pose proof (app_history_only m w _ _ Hsame) as (Ho & Ht & Hs).
  unfold ending, trace, state_after, history in *.
  rewrite (app_with_history m w ss) in Ho, Ht, Hs.
  rewrite Ho, Ht, Hs. repeat split.
Qed.

Lemma reset_does_not_change_next_run_witness :
  ending plain_model scenario
    (state_after plain_model reset_click full_session) =
    ending plain_model scenario full_session /\
  trace plain_model scenario
    (state_after plain_model reset_click full_session) =
    trace plain_model scenario full_session /\
  history (state_after plain_model scenario
             (state_after plain_model reset_click full_session)) =
    history (state_after plain_model scenario full_session).
Proof.
  exact (reset_does_not_change_next_run plain_model reset_click scenario
           full_session list_history_full eq_refl).
Defined.

(** ** X12 *)

Lemma contains_refl p : Py.contains p p = true.
Proof.
  pose proof (contains_suffix "" p) as H. exact H.
Qed.

Lemma contains_after a p s :
  Py.contains p s = true -> Py.contains p (a +:+ s) = true.
Proof.
  intros H. induction a as [|x a IH]; [exact H|].
  change (String x a +:+ s) with (String x (a +:+ s)).
  rewrite contains_unfold, IH. apply orb_true_r.
Qed.

Lemma contains_join sep parts msg :
  msg ∈ parts -> Py.contains msg (join sep parts) = true.
Proof.
  induction parts as [|p rest IH]; intros Hin; [inversion Hin|].
  apply elem_of_cons in Hin as [-> | Hin].
  - destruct rest as [|r rest]; [apply contains_refl|].
    change (join sep (p :: r :: rest))
      with (p +:+ sep +:+ join sep (r :: rest)).
    apply contains_prefix.
  - destruct rest as [|r rest]; [inversion Hin|].
    change (join sep (p :: r :: rest))
      with (p +:+ sep +:+ join sep (r :: rest)).
    apply contains_after, contains_after, IH, Hin.
Qed.

(** X12. On a submission with at least one reading out of range,
    [st.warning] is called exactly once, with the messages of all violated
    checks joined by single spaces, so that each message occurs in the text
    shown. *)
Theorem out_of_range_warns_once (m : artifacts) (w : widgets)
    (ss : session_state) (c : Z) :
  list_history ss ->
  submitted w = true -> reset w = false ->
  confidence_map !! confidence w = Some c ->
  warnings w <> [] ->
  warnings_shown (trace m w ss) = [join " " (warnings w)] /\
  forall msg, msg ∈ warnings w ->
    Py.contains msg (join " " (warnings w)) = true.
Proof.
  intros Hl Hs Hr Hc Hw. split.
  - rewrite (submitted_warnings_shown m w ss c Hl Hs Hr Hc).
    rewrite bool_decide_eq_false_2 by exact Hw. reflexivity.
  - intros msg. apply contains_join.
Qed.

Lemma out_of_range_warns_once_witness :
  warnings_shown (trace plain_model cold_scenario ∅) =
  ["⚠️ Brightness outside 300–450 K! ⚠️ Brightness T31 outside 290–400 K! ⚠️ FRP outside 0–100 MW!"].
Proof.
  refine (proj1 (out_of_range_warns_once plain_model cold_scenario ∅ 0
                   list_history_empty eq_refl eq_refl eq_refl _)).
  discriminate.
Defined.

(** ** X13 *)

(** X13. The list of warnings holds the brightness message exactly when
    brightness < 300 or brightness > 450, the T31 message exactly when
    bright_t31 < 290 or bright_t31 > 400, and the FRP message exactly when
    frp < 0 or frp > 100; it holds nothing else, in that order and without
    repetition, whatever scan, track and confidence are. *)
Theorem warnings_exactly_the_violations (w : widgets) :
  ("⚠️ Brightness outside 300–450 K!" ∈ warnings w <->
   Py.lt (brightness w) 300 || Py.gt (brightness w) 450 = true) /\
  ("⚠️ Brightness T31 outside 290–400 K!" ∈ warnings w <->
   Py.lt (bright_t31 w) 290 || Py.gt (bright_t31 w) 400 = true) /\
  ("⚠️ FRP outside 0–100 MW!" ∈ warnings w <->
   Py.lt (frp w) 0 || Py.gt (frp w) 100 = true) /\
  sublist (warnings w)
    ["⚠️ Brightness outside 300–450 K!";
     "⚠️ Brightness T31 outside 290–400 K!";
     "⚠️ FRP outside 0–100 MW!"].
Proof.
  unfold warnings.
  destruct (Py.lt (brightness w) 300 || Py.gt (brightness w) 450);
    destruct (Py.lt (bright_t31 w) 290 || Py.gt (bright_t31 w) 400);
    destruct (Py.lt (frp w) 0 || Py.gt (frp w) 100);
    simpl; rewrite ?elem_of_cons, ?elem_of_nil;
    (split; [|split; [|split]]);
    try (split; intros H;
         [ reflexivity || (intuition discriminate)
         | discriminate || auto 10 ]);
    repeat first [ apply sublist_nil | apply sublist_skip
                 | apply sublist_cons ].
Qed.

(** ** The order of floats that are numbers *)

Ltac cmp_cases :=
  repeat match goal with
  | |- context [Z.compare ?a ?b] => destruct (Z.compare_spec a b)
  | |- context [Pos.compare_cont Eq ?a ?b] =>
      change (Pos.compare_cont Eq a b) with (Pos.compare a b)
  | |- context [Pos.compare ?a ?b] => destruct (Pos.compare_spec a b)
  end.

Lemma SFleb_trans a b c :
  SFleb a b = true -> SFleb b c = true -> SFleb a c = true.
Proof.
  unfold SFleb.
  destruct a as [sa|sa| |sa ma ea], b as [sb|sb| |sb mb eb],
    c as [sc|sc| |sc mc ec]; simpl;
    try discriminate; try reflexivity;
    try (destruct sa; simpl; try discriminate; try reflexivity);
    try (destruct sb; simpl; try discriminate; try reflexivity);
    try (destruct sc; simpl; try discriminate; try reflexivity).
  all: cmp_cases; simpl; intros; subst;
    try discriminate; try reflexivity; try lia.
Qed.

Lemma SFcompare_number a b :
  SFeqb a a = true -> SFeqb b b = true -> is_Some (SFcompare a b).
Proof.
  unfold SFeqb.
  destruct a as [sa|sa| |sa ma ea], b as [sb|sb| |sb mb eb]; simpl;
    try discriminate; intros _ _; eexists; reflexivity.
Qed.

Lemma le_trans_float (x y z : float) :
  Py.le x y = true -> Py.le y z = true -> Py.le x z = true.
Proof.
  unfold Py.le. intros H1 H2. rewrite leb_spec in *.
  exact (SFleb_trans _ _ _ H1 H2).
Qed.

Lemma le_refl_number (x : float) : is_number x = true -> Py.le x x = true.
Proof.
  unfold is_number, Py.le. intros H. rewrite FloatAxioms.eqb_spec in H.
  rewrite leb_spec. unfold SFeqb in H. unfold SFleb.
  destruct (SFcompare _ _) as [[]|]; congruence.
Qed.

(** Of two numbers, one that is not below the other is above or equal. *)
Lemma not_gt_le (x y : float) :
  is_number x = true -> is_number y = true ->
  Py.gt x y = false -> Py.le x y = true.
Proof.
  unfold is_number, Py.gt, Py.le. intros Hx Hy Hg.
  rewrite FloatAxioms.eqb_spec in Hx, Hy. rewrite ltb_spec in Hg. rewrite leb_spec.
  destruct (SFcompare_number _ _ Hx Hy) as [c Hc].
  unfold SFltb in Hg. unfold SFleb.
  rewrite (SFcompare_swap (Prim2SF x) (Prim2SF y)), Hc in Hg. rewrite Hc.
  destruct c; simpl in *; congruence.
Qed.

Lemma gt_le (x y : float) : Py.gt x y = true -> Py.le y x = true.
Proof.
  unfold Py.gt, Py.le. intros H. rewrite ltb_spec in H. rewrite leb_spec.
  unfold SFltb in H. unfold SFleb.
  destruct (SFcompare _ _) as [[]|]; congruence.
Qed.

(** ** X14 *)

Lemma max_from_bounds acc xs :
  is_number acc = true -> Forall (fun x => is_number x = true) xs ->
  Py.le acc (Py.max_from acc xs) = true /\
  forall x, x ∈ xs -> Py.le x (Py.max_from acc xs) = true.
Proof.
  revert acc. induction xs as [|x xs IH]; intros acc Hacc Hxs; simpl.
  - split; [apply le_refl_number, Hacc | intros x Hx; inversion Hx].
  - inversion Hxs as [|? ? Hx Hrest]; subst.
    assert (Hstep : is_number (if Py.gt x acc then x else acc) = true /\
                    Py.le acc (if Py.gt x acc then x else acc) = true /\
                    Py.le x (if Py.gt x acc then x else acc) = true).
    { destruct (Py.gt x acc) eqn:G.
      - split; [exact Hx|]. split; [apply gt_le, G | apply le_refl_number, Hx].
      - split; [exact Hacc|].
        split; [apply le_refl_number, Hacc | apply not_gt_le; assumption]. }
    destruct Hstep as (Hn & Ha & Hb).
    destruct (IH _ Hn Hrest) as [H1 H2]. split.
    + exact (le_trans_float _ _ _ Ha H1).
    + intros y Hy. apply elem_of_cons in Hy as [-> | Hy].
      * exact (le_trans_float _ _ _ Hb H1).
      * apply H2, Hy.
Qed.

(** On numbers, [max] gives one of them that none of them exceeds. *)
Lemma max_is_largest (xs : list float) (q : float) :
  Forall (fun x => is_number x = true) xs ->
  Py.max xs = Some q ->
  q ∈ xs /\ forall x, x ∈ xs -> Py.le x q = true.
Proof.
  intros Hxs Hq. split; [exact (max_elem xs q Hq)|].
  destruct xs as [|x0 xs]; [discriminate|]. simpl in Hq.
  injection Hq as <-.
  inversion Hxs as [|? ? H0 Hrest]; subst.
  destruct (max_from_bounds x0 xs H0 Hrest) as [H1 H2].
  intros x Hx. apply elem_of_cons in Hx as [-> | Hx]; [exact H1 | apply H2, Hx].
Qed.

(** A float that is above or equal to another is a number. *)
Lemma le_is_number (a x : float) : Py.le a x = true -> is_number x = true.
Proof.
  unfold Py.le, is_number. intros H. rewrite leb_spec in H.
  rewrite FloatAxioms.eqb_spec. unfold SFleb in H. unfold SFeqb.
  destruct (Prim2SF a) as [sa|sa| |sa ma ea],
           (Prim2SF x) as [sx|sx| |sx mx ex];
    simpl in *; try discriminate; try reflexivity;
    destruct sx; try reflexivity;
    rewrite Z.compare_refl, Pos.compare_cont_refl; reflexivity.
Qed.

(** X14. When [predict_proba] returns float64 probabilities between 0.0
    and 1.0 that are not all zero, the confidence a submission shows and
    saves is the largest class probability: none of the probabilities
    exceeds it, it is shown in the confidence line, and it is the
    confidence of the entry the run appends. *)
Theorem largest_probability_shown_and_saved (m : artifacts) (w : widgets)
    (ss : session_state) (c : Z) (s probs : list float) (p : Z) (q : float) :
  list_history ss ->
  submitted w = true -> reset w = false ->
  confidence_map !! confidence w = Some c ->
  transform m (input_array w c) = Ok s ->
  predict m s = Ok p ->
  predict_proba m s = Ok probs -> proba_dtype m = float64 ->
  Forall (fun x => Py.le 0 x = true /\ Py.le x 1 = true) probs ->
  Py.max probs = Some q -> Py.truthy q = true ->
  (forall x, x ∈ probs -> Py.le x q = true) /\
  st_markdown (ConfidenceLine q) ∈ trace m w ss /\
  last (history (state_after m w ss)) = Some (Entry.mk (fire_type p) q).
Proof.
  intros Hl Hs Hr Hc Ht Hp Hpp Hd Hin Hq Hz.
  assert (Hnum : Forall (fun x => is_number x = true) probs).
  { eapply Forall_impl; [exact Hin|]. intros x [H0 _].
    exact (le_is_number _ _ H0). }
  destruct (max_is_largest probs q Hnum Hq) as [Hel Hmax].
  split; [exact Hmax|].
  assert (Hmp : get_max_proba m s (with_history ss) =
            (Return (Some q), with_history ss,
             [model_predict_proba s; st_write (Probabilities probs)])).
  { rewrite get_max_proba_run, Hpp, Hq. reflexivity. }
  assert (Hpass : progress_passes m (Some q)).
  { intros _. unfold progress_accepts. rewrite Hd.
    rewrite Forall_forall in Hin. destruct (Hin _ Hel) as [-> ->].
    reflexivity. }
  pose proof (app_predicted m w ss c s p (Some q) _ Hl Hs Hr Hc Ht Hp Hmp
                Hpass) as Happ.
  unfold trace, state_after. rewrite Happ. cbn [fst snd].
  rewrite history_insert. split.
  - unfold confidence_calls. rewrite Hz.
    do 5 (apply elem_of_app; right). left.
  - rewrite saved_last. unfold saved_confidence. rewrite Hz. reflexivity.
Qed.

Lemma largest_probability_shown_and_saved_witness :
  (forall x, x ∈ [0.25; 0.75]%float -> Py.le x 0.75 = true) /\
  st_markdown (ConfidenceLine 0.75) ∈ trace plain_model scenario ∅ /\
  last (history (state_after plain_model scenario ∅)) =
    Some (Entry.mk "Static Land Source 🏭🔥" 0.75).
Proof.
  apply (largest_probability_shown_and_saved plain_model scenario ∅ 1
           [320; 300; 20; 1; 1; 1]%float [0.25; 0.75]%float 2 0.75%float
           list_history_empty eq_refl eq_refl eq_refl eq_refl eq_refl
           eq_refl eq_refl).
  - repeat constructor.
  - reflexivity.
  - reflexivity.
Defined.

(** ** X15 *)

Lemma py_min_capped x :
  Py.gt (py_min x 1) 1 = false /\
  (is_number (py_min x 1) = true -> Py.le (py_min x 1) 1 = true).
Proof.
  unfold py_min. destruct (Py.lt 1 x) eqn:L.
  - split; reflexivity.
  - split; [exact L|]. intros Hx. apply not_gt_le; [exact Hx | reflexivity |].
    exact L.
Qed.

(** X15. The radar chart gets five values, none of them greater than 1,
    the maximum of its axis: each is at most 1 whenever it is a number. *)
Theorem chart_values_capped (w : widgets) :
  length (chart_values w) = 5%nat /\
  Forall (fun v => Py.gt v 1 = false /\
                   (is_number v = true -> Py.le v 1 = true))
    (chart_values w).
Proof.
  split; [reflexivity|]. unfold chart_values.
  repeat (constructor; [apply py_min_capped|]). constructor.
Qed.

(** ** X16 *)

(** X16. Loading decides the run. When a file is missing the run shows
    the file-not-found error and stops; when loading raises anything else
    the run dies with that very exception, having shown nothing; in both
    cases the session state is untouched, the history is not even created,
    and nothing else of the script runs. Once both objects are loaded the
    run is the script from line 17 on. *)
Theorem loading_decides_the_run :
  (forall w ss,
     main FileNotFound w ss =
     (Stop, ss,
      [st_error "🔥 Model or scaler file not found! Ensure 'best_fire_detection_model.pkl' and 'scaler.pkl' are in the same directory."])) /\
  (forall e w ss, main (LoadRaises e) w ss = (Raise e, ss, [])) /\
  (forall m w ss, main (Loaded m) w ss = app m w ss).
Proof.
  split; [|split].
  - intros w ss. reflexivity.
  - intros e w ss. reflexivity.
  - intros m w ss. exact (run_bind_mret m (fun m0 => app m0 w) ss).
Qed.

(** ** X17 *)

Lemma saved_length_min h e :
  (length h <= 10)%nat ->
  length (saved h e) = Nat.min (S (length h)) 10.
Proof.
  intros H. unfold saved.
  destruct (10 <? length (h ++ [e]))%nat eqn:E.
  - apply Nat.ltb_lt in E. rewrite length_drop. rewrite length_app in *.
    cbn [length] in *. rewrite Nat.min_r by lia. lia.
  - apply Nat.ltb_ge in E. rewrite length_app in *. cbn [length] in *.
    rewrite Nat.min_l by lia. lia.
Qed.

Lemma min_step (a n : nat) :
  (a <= 10)%nat ->
  Nat.min (Nat.min (S a) 10 + n) 10 = Nat.min (a + S n) 10.
Proof.
  intros Ha.
  destruct (Nat.min_spec (S a) 10) as [[? ->] | [? ->]];
    destruct (Nat.min_spec (a + S n) 10) as [[? ->] | [? ->]].
  - rewrite Nat.min_l by lia. lia.
  - rewrite Nat.min_r by lia. reflexivity.
  - lia.
  - rewrite Nat.min_r by lia. reflexivity.
Qed.

(** With a model whose calls succeed, a submission saves one entry, the
    same from whatever state. *)
Lemma dependable_submission_saves m w :
  dependable m -> submission w ->
  exists e, forall ss,
    list_history ss ->
    ending m w ss = Return tt /\
    state_after m w ss !! "history" = Some (VList (saved (history ss) e)).
Proof.
  intros (Ht & Hp & Hpp) (Hs & Hr & [c Hc]).
  destruct (Ht (input_array w c)) as [s Hts].
  destruct (Hp s) as [p Hps].
  assert (exists mp t,
            progress_passes m mp /\
            forall ss, get_max_proba m s ss = (Return mp, ss, t))
    as (mp & t & Hpass & Hmp).
  { destruct (Hpp s) as [(q & probs & Hq & Hd & Hin) | (msg & Hq)].
    - exists (Py.max (q :: probs)). simpl Py.max. eexists. split.
      + intros _. unfold progress_accepts. rewrite Hd.
        assert (Hel : Py.max_from q probs ∈ q :: probs)
          by (apply max_elem; reflexivity).
        rewrite Forall_forall in Hin. destruct (Hin _ Hel) as [-> ->].
        reflexivity.
      + intros ss. rewrite get_max_proba_run, Hq. reflexivity.
    - exists None. eexists. split; [exact I|].
      intros ss. rewrite get_max_proba_run, Hq. reflexivity. }
  exists (Entry.mk (fire_type p) (saved_confidence mp)). intros ss Hl.
  unfold ending, state_after.
  rewrite (app_predicted m w ss c s p mp t Hl Hs Hr Hc Hts Hps (Hmp _)
             Hpass).
  cbn [fst snd]. split; [reflexivity | apply lookup_insert_eq].
Qed.

Lemma dependable_session_length m ws ss :
  dependable m -> Forall submission ws ->
  list_history ss -> (length (history ss) <= 10)%nat ->
  length (history (session m ws ss)) =
  Nat.min (length (history ss) + length ws) 10.
Proof.
  intros Hm Hws. revert ss.
  induction Hws as [|w ws Hw _ IH]; intros ss Hl Hb; simpl.
  - rewrite Nat.add_0_r, Nat.min_l by exact Hb. reflexivity.
  - destruct (dependable_submission_saves m w Hm Hw) as (e & He).
    destruct (He ss Hl) as [_ He'].
    assert (Hh : history (state_after m w ss) = saved (history ss) e).
    { unfold history at 1. rewrite He'. reflexivity. }
    rewrite IH.
    + rewrite Hh, (saved_length_min _ e Hb). apply min_step, Hb.
    + right. eexists. exact He'.
    + rewrite Hh. apply saved_length, Hb.
Qed.

(** X17. With a scaler and a classifier whose calls succeed and whose
    probabilities, when it gives any, are float64 values between 0.0 and
    1.0, a session of [n] submissions started from an empty session state
    ends with [min n 10] entries in its history: every submission adds one
    until the cap of 10 is reached. *)
Theorem session_history_length (m : artifacts) (ws : list widgets) :
  dependable m -> Forall submission ws ->
  length (history (session m ws ∅)) = Nat.min (length ws) 10.
Proof.
  intros Hm Hws.
  rewrite (dependable_session_length m ws ∅ Hm Hws list_history_empty).
  - reflexivity.
  - unfold history. rewrite lookup_empty. simpl. lia.
Qed.

Lemma plain_model_dependable : dependable plain_model.
Proof.
  split; [|split].
  - intros v. eexists. reflexivity.
  - intros s. eexists. reflexivity.
  - intros s. left. eexists _, _. split; [reflexivity|].
    split; [reflexivity|]. repeat constructor.
Qed.

Lemma scenario_submission : submission scenario.
Proof. split; [|split]; [reflexivity | reflexivity | eexists; reflexivity]. Qed.

Lemma session_history_length_witness :
  length (history (session plain_model (replicate 12 scenario) ∅)) = 10%nat.
Proof.
  apply (session_history_length plain_model (replicate 12 scenario)).
  - exact plain_model_dependable.
  - simpl replicate.
    repeat (constructor; [exact scenario_submission|]). constructor.
Defined.

(** ** X18 *)

(** X18. A run with neither button pressed predicts nothing: it ends
    normally having made only the sidebar's calls, and the only change it
    can make to the session state is to create the empty history on the
    first run of a session. *)
Theorem idle_run_predicts_nothing (m : artifacts) (w : widgets)
    (ss : session_state) :
  list_history ss ->
  submitted w = false -> reset w = false ->
  ending m w ss = Return tt /\
  trace m w ss = sidebar_calls (history ss) /\
  (forall h, ss !! "history" = Some (VList h) -> state_after m w ss = ss) /\
  (ss !! "history" = None ->
   state_after m w ss = <["history" := VList []]> ss /\ trace m w ss = []).
Proof.
  intros Hl Hs Hr. unfold ending, trace, state_after.
  rewrite (app_idle m w ss Hl Hr Hs). cbn [fst snd].
  split; [reflexivity|]. split; [reflexivity|]. split.
  - intros h Hh. apply (with_history_present ss h Hh).
  - intros Hn. unfold with_history, history. rewrite Hn.
    rewrite bool_decide_eq_false_2 by (intros [v Hv]; discriminate).
    split; reflexivity.
Qed.

Lemma idle_run_predicts_nothing_witness :
  ending plain_model page_load ∅ = Return tt /\
  trace plain_model page_load ∅ = [] /\
  state_after plain_model page_load ∅ = <["history" := VList []]> ∅.
Proof.
  destruct (idle_run_predicts_nothing plain_model page_load ∅
              list_history_empty eq_refl eq_refl) as (H1 & _ & _ & H4).
  destruct (H4 (lookup_empty _)) as [H5 H6].
  split; [exact H1|]. split; [exact H6 | exact H5].
Defined.

(** ** X19 *)

Lemma fire_type_label p :
  fire_type p ∈ ["Vegetation Fire 🌿🔥"; "Static Land Source 🏭🔥";
                 "Offshore Fire 🌊🔥"; "Unknown Fire Type ❓"].
Proof.
  unfold fire_type, fire_types. simpl list_to_map.
  destruct (decide (p = 0)) as [-> | H0]; [left|].
  destruct (decide (p = 2)) as [-> | H2]; [right; left|].
  destruct (decide (p = 3)) as [-> | H3]; [right; right; left|].
  rewrite !lookup_insert_ne by congruence. rewrite lookup_empty.
  right; right; right; left.
Qed.

Lemma saved_confidence_truthy mp : Py.truthy (saved_confidence mp) = true.
Proof.
  unfold saved_confidence. destruct mp as [q|]; [|reflexivity].
  destruct (Py.truthy q) eqn:E; [exact E | reflexivity].
Qed.

Lemma Forall_saved (P : Entry.t -> Prop) h e :
  Forall P h -> P e -> Forall P (saved h e).
Proof.
  intros Hh He. unfold saved.
  assert (Forall P (h ++ [e])) by (apply Forall_app; split; [exact Hh | repeat constructor; exact He]).
  destruct (10 <? length (h ++ [e]))%nat; [apply Forall_drop|]; assumption.
Qed.

Lemma session_entries m ws ss :
  start_ok ss -> Forall well_formed_entry (history ss) ->
  Forall well_formed_entry (history (session m ws ss)).
Proof.
  revert ss. induction ws as [|w ws IH]; intros ss Hok Hwf; [exact Hwf|].
  simpl. apply IH; [right; apply app_history_ok, Hok|].
  destruct (run_history_step m w ss (start_ok_list_history ss Hok))
    as [-> | (p & mp & _ & _ & ->)]; [exact Hwf|].
  apply Forall_saved; [exact Hwf|].
  split; [apply fire_type_label | apply saved_confidence_truthy].
Qed.

(** X19. Whatever requests a session makes, every entry of its history
    has one of the four labels of lines 183-188 as its result and a
    confidence that is not zero. *)
Theorem history_entries_well_formed (m : artifacts) (ws : list widgets) :
  Forall well_formed_entry (history (session m ws ∅)).
Proof.
  apply session_entries; [left; apply lookup_empty|].
  unfold history. rewrite lookup_empty. constructor.
Qed.

(** ** X20 *)

(** X20. Nothing is deduplicated: with a scaler and a classifier whose
    calls succeed and whose probabilities, when it gives any, are float64
    values between 0.0 and 1.0, submitting the same values twice while the
    history has room appends the same entry twice. *)
Theorem same_submission_saved_twice (m : artifacts) (w : widgets)
    (ss : session_state) :
  dependable m -> submission w ->
  list_history ss -> (length (history ss) + 2 <= 10)%nat ->
  exists e, history (session m [w; w] ss) = history ss ++ [e; e].
Proof.
  intros Hm Hw Hl Hb.
  destruct (dependable_submission_saves m w Hm Hw) as (e & He).
  exists e. simpl session.
  destruct (He ss Hl) as [_ H1].
  assert (Hh1 : history (state_after m w ss) = history ss ++ [e]).
  { unfold history at 1. rewrite H1. apply saved_room. lia. }
  assert (Hl1 : list_history (state_after m w ss)).
  { right. eexists. exact H1. }
  destruct (He _ Hl1) as [_ H2].
  unfold history at 1. rewrite H2, Hh1, saved_room.
  - rewrite <- app_assoc. reflexivity.
  - rewrite length_app. simpl. lia.
Qed.

Lemma same_submission_saved_twice_witness :
  exists e, history (session plain_model [scenario; scenario] ∅) = [] ++ [e; e].
Proof.
  apply (same_submission_saved_twice plain_model scenario ∅
           plain_model_dependable scenario_submission list_history_empty).
  vm_compute. lia.
Defined.
